(** * mood-lighting: the LIFX API client and the button controller

    A shallow embedding of [src/lighting/lifx_api.py] (class
    [LIFXController]) and of the button handler of [src/main.py] (class
    [LightController]), with the properties of the toggle protocol, of
    the bulk-write check, of the request cleanup and of the debounce gate.

    Python objects that come back from [response.json()] are values of
    the type [json]; exceptions are values of [Exc]; a method that can
    raise and that talks to the network is a function from the state of
    the world to a result-or-exception and a new state of the world. *)

From Stdlib Require Import ZArith QArith List String Ascii Bool Lia.
From Stdlib Require Import DecimalString.
Import ListNotations.

Set Warnings "-register-all".

Local Open Scope string_scope.
Local Open Scope Z_scope.

(** ** Python values *)

(** What [json.loads] builds: [None], [bool], numbers, [str], [list] and
    [dict].  A [dict] keeps its items in insertion order with one item
    per key; [JObj] lists them in that order and [assoc] reads the item
    of a key. *)
Inductive json : Type :=
| JNull
| JBool (b : bool)
| JNum (q : Q)
| JStr (s : string)
| JArr (items : list json)
| JObj (fields : list (string * json)).

Fixpoint assoc (k : string) (fields : list (string * json)) : option json :=
  match fields with
  | [] => None
  | (k', v) :: rest => if String.eqb k k' then Some v else assoc k rest
  end.

(** [bool(v)]: the truth value Python gives to [v] in [if v] and [not v]. *)
Definition truthy (v : json) : bool :=
  match v with
  | JNull => false
  | JBool b => b
  | JNum q => negb (Qnum q =? 0)
  | JStr s => negb (String.eqb s "")
  | JArr items => match items with [] => false | _ => true end
  | JObj fields => match fields with [] => false | _ => true end
  end.

(** [v == s] for a string literal [s]: only the string [s] is equal to it. *)
Definition eq_str (v : json) (s : string) : bool :=
  match v with
  | JStr s' => String.eqb s' s
  | _ => false
  end.

(** [str(n)] for an integer. *)
Definition str_of_Z (n : Z) : string := NilZero.string_of_int (Z.to_int n).

(** [needle in hay] on two strings. *)
Fixpoint is_substring (needle hay : string) : bool :=
  if String.prefix needle hay then true
  else match hay with
       | EmptyString => false
       | String _ rest => is_substring needle rest
       end.

(** The one-character strings of [s], which is what iterating a [str]
    yields. *)
Fixpoint chars (s : string) : list string :=
  match s with
  | EmptyString => []
  | String c rest => String c EmptyString :: chars rest
  end.

(** ** Exceptions *)

(** The exception classes that can travel through the client.
    [LIFXAPIError] is the class the module declares; the others are the
    interpreter's; [LibraryError] stands for whatever the HTTP library
    raises ([OSError], a timeout, a [ValueError] from the JSON parser). *)
Inductive ExcClass : Type :=
| LIFXAPIError
| UnboundLocalError
| KeyError
| IndexError
| TypeError
| AttributeError
| LibraryError.

(** An exception: its class and [str(e)].  The text of the interpreter's
    own messages differs between CPython and MicroPython; what is written
    here is CPython's, and no statement below depends on it. *)
Record Exc : Type := raise_ { exc_class : ExcClass; exc_str : string }.

Definition is_LIFXAPIError (e : Exc) : bool :=
  match exc_class e with
  | LIFXAPIError => true
  | _ => false
  end.

(** How an evaluation ends: with a value or with a raised exception. *)
Inductive completion (A : Type) : Type :=
| Ok (a : A)
| Raise (e : Exc).
Arguments Ok {A} a.
Arguments Raise {A} e.

(** ** Operations on Python values *)

(** [v[0]]. *)
Definition getitem_0 (v : json) : completion json :=
  match v with
  | JArr (x :: _) => Ok x
  | JArr [] => Raise (raise_ IndexError "list index out of range")
  | JStr (String c _) => Ok (JStr (String c EmptyString))
  | JStr EmptyString => Raise (raise_ IndexError "string index out of range")
  | JObj _ => Raise (raise_ KeyError "0")
  | _ => Raise (raise_ TypeError "object is not subscriptable")
  end.

(** [v[k]] for a string key [k]. *)
Definition getitem (v : json) (k : string) : completion json :=
  match v with
  | JObj fields =>
      match assoc k fields with
      | Some x => Ok x
      | None => Raise (raise_ KeyError ("'" ++ k ++ "'"))
      end
  | JArr _ => Raise (raise_ TypeError "list indices must be integers or slices, not str")
  | JStr _ => Raise (raise_ TypeError "string indices must be integers, not 'str'")
  | _ => Raise (raise_ TypeError "object is not subscriptable")
  end.

(** [k in v] for a string [k]. *)
Definition contains (k : string) (v : json) : completion bool :=
  match v with
  | JObj fields => Ok (match assoc k fields with Some _ => true | None => false end)
  | JArr items => Ok (existsb (fun x => eq_str x k) items)
  | JStr s => Ok (is_substring k s)
  | _ => Raise (raise_ TypeError "argument is not iterable")
  end.

(** [for r in v]: the items the loop visits. *)
Definition iterate (v : json) : completion (list json) :=
  match v with
  | JArr items => Ok items
  | JObj fields => Ok (map (fun kv => JStr (fst kv)) fields)
  | JStr s => Ok (map JStr (chars s))
  | _ => Raise (raise_ TypeError "object is not iterable")
  end.

(** [r.get(k)]: a method of [dict] only. *)
Definition dict_get (r : json) (k : string) : completion json :=
  match r with
  | JObj fields =>
      match assoc k fields with
      | Some x => Ok x
      | None => Ok JNull
      end
  | _ => Raise (raise_ AttributeError "object has no attribute 'get'")
  end.

(** Sequencing of operations that can raise. *)
Definition bind_result {A B : Type} (r : completion A) (k : A -> completion B) : completion B :=
  match r with
  | Ok a => k a
  | Raise e => Raise e
  end.

Notation "x <-- r ;; k" := (bind_result r (fun x => k))
  (at level 61, r at next level, right associativity).

(** ** The network *)

(** What [requests.get] and [requests.put] are called with.  The body
    [req_data] is the value handed to [json.dumps]; its text on the wire
    is not modelled. *)
Record Request : Type := mkRequest {
  req_method : string;
  req_url : string;
  req_headers : list (string * string);
  req_data : option json;
  req_timeout : Q
}.

(** What the HTTP library hands back when the call does not raise:
    the status line, the raw text and what [response.json()] does. *)
Record Reply : Type := mkReply {
  status_code : Z;
  text : string;
  json_ : completion json
}.

Inductive HttpOutcome : Type :=
| Raises (e : Exc)
| Returns (r : Reply).

(** What an observer of the client sees, newest event first. *)
Inductive Event : Type :=
| Sent (rq : Request)
| Opened (h : nat)
| Closed (h : nat).

(** A response object: the connection handle it owns and its content. *)
Record Response : Type := mkResponse { handle : nat; reply : Reply }.

Definition is_write (ev : Event) : bool :=
  match ev with
  | Sent rq => String.eqb (req_method rq) "PUT"
  | _ => false
  end.

(** The write requests of a log. *)
Definition writes (l : list Event) : list Event := filter is_write l.

(** The handles a stretch of log leaves open: opened in it and not closed
    later in it.  The log is newest first, so [later] holds the handles
    closed after the event under inspection. *)
Fixpoint unreleased_from (later : list nat) (l : list Event) : list nat :=
  match l with
  | [] => []
  | Closed h :: rest => unreleased_from (h :: later) rest
  | Opened h :: rest =>
      if existsb (Nat.eqb h) later then unreleased_from later rest
      else h :: unreleased_from later rest
  | Sent _ :: rest => unreleased_from later rest
  end.

Definition unreleased (l : list Event) : list nat := unreleased_from [] l.

(** ** [src/lighting/lifx_api.py] *)

Module lifx_api.

Section Client.

(** The cloud service and the HTTP library in front of it: given the
    state of the service and a request, the call raises or returns a
    reply, and the service moves to a new state. *)
Variable Env : Type.
Variable http : Env -> Request -> HttpOutcome * Env.

(** [from secrets import LIFX_TOKEN]: the module [secrets] is not part of
    the sources. *)
Variable LIFX_TOKEN : string.

(** The state a method runs in: the service and the log of what the
    client did so far. *)
Record World : Type := mkWorld { env : Env; log : list Event }.

(** A method that can raise and that can use the network. *)
Definition M (A : Type) : Type := World -> completion A * World.

Definition ret {A : Type} (a : A) : M A := fun w => (Ok a, w).

Definition raise {A : Type} (e : Exc) : M A := fun w => (Raise e, w).

Definition bind {A B : Type} (m : M A) (k : A -> M B) : M B :=
  fun w =>
    match m w with
    | (Ok a, w') => k a w'
    | (Raise e, w') => (Raise e, w')
    end.

Definition lift {A : Type} (r : completion A) : M A := fun w => (r, w).

Notation "x <- m ;; k" := (bind m (fun x => k))
  (at level 61, m at next level, right associativity).

(** The two handlers that close the public methods:
[[
        except LIFXAPIError:
            raise
        except Exception as e:
            raise LIFXAPIError(f"<prefix>{str(e)}")
]] *)
Definition except_LIFXAPIError {A : Type} (prefix : string) (m : M A) : M A :=
  fun w =>
    match m w with
    | (Ok a, w') => (Ok a, w')
    | (Raise e, w') =>
        if is_LIFXAPIError e then (Raise e, w')
        else (Raise (raise_ LIFXAPIError (prefix ++ exc_str e)), w')
    end.

(** [requests.get] and [requests.put]: the request goes out; when the
    library returns, the response object owns a fresh connection handle. *)
Definition requests_send (rq : Request) : M Response :=
  fun w =>
    let (outcome, env') := http (env w) rq in
    match outcome with
    | Raises e => (Raise e, mkWorld env' (Sent rq :: log w))
    | Returns r =>
        let h := List.length (log w) in
        (Ok (mkResponse h r), mkWorld env' (Opened h :: Sent rq :: log w))
    end.

Definition requests_get (url : string) (headers : list (string * string))
    (timeout : Q) : M Response :=
  requests_send (mkRequest "GET" url headers None timeout).

Definition requests_put (url : string) (headers : list (string * string))
    (data : option json) (timeout : Q) : M Response :=
  requests_send (mkRequest "PUT" url headers data timeout).

(** [response.close()]: it releases the handle of the response and does
    not raise. *)
Definition close (response : Response) (w : World) : World :=
  mkWorld (env w) (Closed (handle response) :: log w).

(** The controller object. *)
Record LIFXController : Type := mkLIFXController {
  api_token : string;
  timeout : Q;
  base_url : string
}.

(** [api_token or LIFX_TOKEN]: [None] and the empty string are false. *)
Definition effective_token (token : option string) : string :=
  match token with
  | Some t => if truthy (JStr t) then t else LIFX_TOKEN
  | None => LIFX_TOKEN
  end.

(** [LIFXController.__init__(api_token=None, timeout=400)]. *)
Definition __init__ (token : option string) (timeout_ms : Z) : completion LIFXController :=
  let self := mkLIFXController (effective_token token)
                               (inject_Z timeout_ms / 1000)%Q
                               "https://api.lifx.com/v1" in
  if negb (truthy (JStr (self.(api_token)))) || negb (Nat.eqb (String.length self.(api_token)) 64)
  then Raise (raise_ LIFXAPIError "Invalid LIFX API token format")
  else Ok self.

(** The [try] block of [_make_request].  Besides the outcome it gives
    the binding of the local variable [response] when the block is left:
    [None] while no assignment to it has run. *)
Definition _make_request_try (self : LIFXController) (method url : string)
    (headers : list (string * string)) (data : option json) (w : World)
  : option Response * completion json * World :=
  let (called, w1) :=
    if String.eqb method "GET" then
      requests_get url headers self.(timeout) w
    else if String.eqb method "PUT" then
      let json_data :=
        match data with
        | Some d => if truthy d then Some d else None
        | None => None
        end in
      requests_put url headers json_data self.(timeout) w
    else
      (Raise (raise_ LIFXAPIError ("Unsupported HTTP method: " ++ method)), w) in
  match called with
  | Raise e => (None, Raise e, w1)
  | Ok response =>
      let r := reply response in
      if negb ((status_code r =? 200) || (status_code r =? 207)) then
        (Some response,
         Raise (raise_ LIFXAPIError
                  ("HTTP " ++ str_of_Z (status_code r) ++ ": " ++ text r)),
         w1)
      else
        match json_ r with
        | Raise e => (Some response, Raise e, w1)
        | Ok result => (Some response, Ok result, close response w1)
        end
  end.

(** [LIFXController._make_request(method, endpoint, data=None)]: the
    [try] block and its handler
[[
        except Exception as e:
            if hasattr(response, 'close'):
                response.close()
            if isinstance(e, LIFXAPIError):
                raise
            else:
                raise LIFXAPIError(f"Request failed: {str(e)}")
]]
    Reading [response] while it is unbound raises [UnboundLocalError]
    inside the handler, and that exception leaves the method. *)
Definition _make_request (self : LIFXController) (method endpoint : string)
    (data : option json) : M json :=
  fun w =>
    let url := self.(base_url) ++ "/" ++ endpoint in
    let headers := [("Authorization", "Bearer " ++ self.(api_token));
                    ("Content-Type", "application/json")] in
    match _make_request_try self method url headers data w with
    | (_, Ok result, w1) => (Ok result, w1)
    | (None, Raise e, w1) =>
        (Raise (raise_ UnboundLocalError
                  "cannot access local variable 'response' where it is not associated with a value"),
         w1)
    | (Some response, Raise e, w1) =>
        let w2 := close response w1 in
        if is_LIFXAPIError e then (Raise e, w2)
        else (Raise (raise_ LIFXAPIError ("Request failed: " ++ exc_str e)), w2)
    end.

(** [LIFXController.get_light_state(light_selector)]. *)
Definition get_light_state (self : LIFXController) (light_selector : string) : M json :=
  let endpoint := "lights/" ++ light_selector in
  except_LIFXAPIError "Failed to get light state: "
    (lights <- _make_request self "GET" endpoint None ;;
     if negb (truthy lights) then
       raise (raise_ LIFXAPIError ("No lights found for selector: " ++ light_selector))
     else ret lights).

(** [sum(1 for r in results if r.get('status') == 'ok')]. *)
Fixpoint success_count (results : list json) : completion Z :=
  match results with
  | [] => Ok 0
  | r :: rest =>
      status <-- dict_get r "status" ;;
      n <-- success_count rest ;;
      Ok (if eq_str status "ok" then 1 + n else n)
  end.

(** The check [set_light_state] makes on the parsed reply:
[[
            if 'results' in result:
                success_count = sum(...)
                if success_count == 0:
                    raise LIFXAPIError("No lights were successfully updated")
            return result
]] *)
Definition check_results (result : json) : completion json :=
  has_results <-- contains "results" result ;;
  if has_results then
    results <-- getitem result "results" ;;
    items <-- iterate results ;;
    count <-- success_count items ;;
    if count =? 0 then Raise (raise_ LIFXAPIError "No lights were successfully updated")
    else Ok result
  else Ok result.

(** The payload [set_light_state] builds, in the order of its three
    assignments. *)
Definition state_payload (power : option string) (brightness : option Q)
    (color : option string) : list (string * json) :=
  (match power with Some p => [("power", JStr p)] | None => [] end) ++
  (match brightness with Some b => [("brightness", JNum b)] | None => [] end) ++
  (match color with Some c => [("color", JStr c)] | None => [] end).

(** [LIFXController.set_light_state(light_selector, power=None,
    brightness=None, color=None)]. *)
Definition set_light_state (self : LIFXController) (light_selector : string)
    (power : option string) (brightness : option Q) (color : option string) : M json :=
  let state := JObj (state_payload power brightness color) in
  if negb (truthy state) then
    raise (raise_ LIFXAPIError "No state changes specified")
  else
    let endpoint := "lights/" ++ light_selector ++ "/state" in
    except_LIFXAPIError "Failed to set light state: "
      (result <- _make_request self "PUT" endpoint (Some state) ;;
       lift (check_results result)).

(** The dictionary [toggle_light] returns. *)
Record ToggleResult : Type := mkToggleResult {
  old_power : json;
  new_power : string;
  api_response : json;
  success : bool
}.

(** [LIFXController.toggle_light(light_selector)]. *)
Definition toggle_light (self : LIFXController) (light_selector : string) : M ToggleResult :=
  except_LIFXAPIError "Toggle failed: "
    (lights <- get_light_state self light_selector ;;
     first <- lift (getitem_0 lights) ;;
     current_power <- lift (getitem first "power") ;;
     let new_power := if eq_str current_power "on" then "off" else "on" in
     result <- set_light_state self light_selector (Some new_power) None None ;;
     ret (mkToggleResult current_power new_power result true)).

End Client.

Arguments mkWorld {Env} env log.
Arguments env {Env} w.
Arguments log {Env} w.
Arguments ret {Env A} a w.
Arguments raise {Env A} e w.
Arguments lift {Env A} r w.
Arguments bind {Env A B} m k w.
Arguments except_LIFXAPIError {Env A} prefix m w.
Arguments close {Env} response w.
Arguments requests_send {Env} http rq w.
Arguments requests_get {Env} http url headers timeout w.
Arguments requests_put {Env} http url headers data timeout w.
Arguments _make_request_try {Env} http self method url headers data w.
Arguments _make_request {Env} http self method endpoint data w.
Arguments get_light_state {Env} http self light_selector w.
Arguments set_light_state {Env} http self light_selector power brightness color w.
Arguments toggle_light {Env} http self light_selector w.

(** The request [_make_request] builds for a method it supports. *)
Definition request_of (self : LIFXController) (method endpoint : string)
    (data : option json) : Request :=
  mkRequest method
    (self.(base_url) ++ "/" ++ endpoint)
    [("Authorization", "Bearer " ++ self.(api_token));
     ("Content-Type", "application/json")]
    (if String.eqb method "GET" then None
     else match data with
          | Some d => if truthy d then Some d else None
          | None => None
          end)
    self.(timeout).

(** The three shapes of what [_make_request] adds to the log: nothing
    (the method is neither GET nor PUT), the request alone (the library
    raised, no response object came back), or the request, the response
    and its release. *)
Inductive request_trace (self : LIFXController) (method endpoint : string)
    (data : option json) (old : list Event) : list Event -> Prop :=
| trace_unsupported :
    String.eqb method "GET" = false -> String.eqb method "PUT" = false ->
    request_trace self method endpoint data old []
| trace_no_response :
    request_trace self method endpoint data old
      [Sent (request_of self method endpoint data)]
| trace_released :
    request_trace self method endpoint data old
      [Closed (List.length old); Opened (List.length old);
       Sent (request_of self method endpoint data)].

(** The write [toggle_light] asks for: a PUT on the state of the
    selected lights whose body sets [power] and nothing else. *)
Definition power_write (self : LIFXController) (light_selector power : string) : Request :=
  mkRequest "PUT"
    (self.(base_url) ++ "/" ++ "lights/" ++ light_selector ++ "/state")
    [("Authorization", "Bearer " ++ self.(api_token));
     ("Content-Type", "application/json")]
    (Some (JObj [("power", JStr power)]))
    self.(timeout).

(** The two power states of a light, the strings the service uses for
    them, and the other state of each. *)
Inductive PowerState : Type :=
| On
| Off.

Definition power_str (p : PowerState) : string :=
  match p with
  | On => "on"
  | Off => "off"
  end.

Definition negate (p : PowerState) : PowerState :=
  match p with
  | On => Off
  | Off => On
  end.

(** A per-light entry of a bulk reply says ["status": "ok"]. *)
Definition reports_ok (entry : list (string * json)) : bool :=
  match assoc "status" entry with
  | Some status => eq_str status "ok"
  | None => false
  end.

(** A service that plays a script, one canned outcome per request, and
    refuses the connection once the script is over.  It stands for the
    remote end in the examples. *)
Definition scripted (script : list HttpOutcome) (rq : Request)
  : HttpOutcome * list HttpOutcome :=
  match script with
  | outcome :: rest => (outcome, rest)
  | [] => (Raises (raise_ LibraryError "connection refused"), [])
  end.

(** A service with one light that answers a read with the light's
    state and obeys a write of [power]. *)
Definition one_light (power : string) (rq : Request) : HttpOutcome * string :=
  if String.eqb (req_method rq) "GET" then
    (Returns (mkReply 200 ""
       (Ok (JArr [JObj [("label", JStr "Kitchen"); ("power", JStr power)]]))),
     power)
  else
    let power' :=
      match req_data rq with
      | Some (JObj fields) =>
          match assoc "power" fields with
          | Some (JStr p) => p
          | _ => power
          end
      | _ => power
      end in
    (Returns (mkReply 207 ""
       (Ok (JObj [("results", JArr [JObj [("label", JStr "Kitchen");
                                          ("status", JStr "ok")]])]))),
     power').

(** The controller of the examples: the token of the test fixtures
    (sixty-four times the letter a) and the default timeout. *)
Definition fixture_token : string :=
  "aaaaaaaaaaaaaaaaaaaaaaaaaaaaaaaaaaaaaaaaaaaaaaaaaaaaaaaaaaaaaaaa".

Definition fixture_controller : LIFXController :=
  mkLIFXController fixture_token (inject_Z 400 / 1000)%Q "https://api.lifx.com/v1".

(** A fresh world in front of a scripted service. *)
Definition playing (script : list HttpOutcome) : World (list HttpOutcome) :=
  mkWorld script [].

(** The reply to a read: status 200 and the list of lights. *)
Definition lights_reply (lights : list json) : HttpOutcome :=
  Returns (mkReply 200 "" (Ok (JArr lights))).

(** The reply to a bulk write: status 207 and one result per light. *)
Definition results_reply (results : list json) : HttpOutcome :=
  Returns (mkReply 207 "" (Ok (JObj [("results", JArr results)]))).

(** A light that reports the given power. *)
Definition light (power : string) : json :=
  JObj [("power", JStr power); ("brightness", JNum (8 # 10))].

(** A per-light entry of a bulk reply with the given status. *)
Definition entry (status : string) : list (string * json) :=
  [("status", JStr status)].

(** A library call that times out. *)
Definition timed_out : HttpOutcome := Raises (raise_ LibraryError "timed out").

(** A reply with an error status. *)
Definition server_error : HttpOutcome :=
  Returns (mkReply 500 "Internal Server Error" (Ok JNull)).

(** The read [get_light_state] asks for: a GET on the selected lights,
    without a body. *)
Definition state_read (self : LIFXController) (light_selector : string) : Request :=
  mkRequest "GET"
    (self.(base_url) ++ "/" ++ "lights/" ++ light_selector)
    [("Authorization", "Bearer " ++ self.(api_token));
     ("Content-Type", "application/json")]
    None
    self.(timeout).

(** The write [set_light_state] asks for: a PUT on the state of the
    selected lights whose body is the payload. *)
Definition state_write (self : LIFXController) (light_selector : string)
    (payload : list (string * json)) : Request :=
  mkRequest "PUT"
    (self.(base_url) ++ "/" ++ "lights/" ++ light_selector ++ "/state")
    [("Authorization", "Bearer " ++ self.(api_token));
     ("Content-Type", "application/json")]
    (Some (JObj payload))
    self.(timeout).

(** The requests of a log, newest first. *)
Definition sent (l : list Event) : list Request :=
  flat_map (fun ev => match ev with Sent rq => [rq] | _ => [] end) l.

(** Whatever the evaluation raises, if it raises, is of the class. *)
Definition raises_only (c : ExcClass) {A : Type} (r : completion A) : Prop :=
  match r with
  | Ok _ => True
  | Raise e => exc_class e = c
  end.

(** The value is a [dict]. *)
Definition is_dict (v : json) : bool :=
  match v with
  | JObj _ => true
  | _ => false
  end.

Section Discovery.

Context {Env : Type} (http : Env -> Request -> HttpOutcome * Env).

(** Floating-point arithmetic is not modelled: [percent v] stands for
    [int(v * 100)], the integer Python computes from a brightness [v],
    or for the exception that computation raises. *)
Variable percent : json -> completion Z.

(** [str(v)] for a value that is not a string, as an f-string prints it. *)
Variable str_other : json -> string.

(** [f"{v}"]. *)
Definition format_value (v : json) : string :=
  match v with
  | JStr s => s
  | _ => str_other v
  end.

(** [d.get(k, default)]: a method of [dict] only. *)
Definition dict_get_default (d : json) (k : string) (default : json) : completion json :=
  match d with
  | JObj fields =>
      match assoc k fields with
      | Some x => Ok x
      | None => Ok default
      end
  | _ => Raise (raise_ AttributeError "object has no attribute 'get'")
  end.

(** The dictionary [discover_lights] builds for one light; its items are
    evaluated in the order they are written. *)
Definition light_info (light : json) : completion json :=
  id <-- getitem light "id" ;;
  label <-- getitem light "label" ;;
  power <-- getitem light "power" ;;
  brightness <-- getitem light "brightness" ;;
  brightness_percent <-- percent brightness ;;
  location <-- dict_get_default light "location" (JObj []) ;;
  name <-- dict_get_default location "name" (JStr "Unknown") ;;
  selector_label <-- getitem light "label" ;;
  Ok (JObj [("id", id);
            ("label", label);
            ("power", power);
            ("brightness", JNum (inject_Z brightness_percent));
            ("location", name);
            ("selector", JStr ("label:" ++ format_value selector_label))]).

(** The loop of [discover_lights]: one dictionary per light, appended in
    the order of the lights. *)
Fixpoint light_infos (lights : list json) : completion (list json) :=
  match lights with
  | [] => Ok []
  | light :: rest =>
      info <-- light_info light ;;
      infos <-- light_infos rest ;;
      Ok (info :: infos)
  end.

(** [LIFXController.discover_lights()]. *)
Definition discover_lights (self : LIFXController) : M Env (list json) :=
  except_LIFXAPIError "Light discovery failed: "
    (bind (get_light_state http self "all") (fun lights =>
     bind (lift (iterate lights)) (fun items =>
     bind (lift (light_infos items)) (fun light_info_list =>
     ret light_info_list)))).

(** [LIFXController.validate_connection()]. *)
Definition validate_connection (self : LIFXController) : M Env bool :=
  except_LIFXAPIError "Connection validation failed: "
    (bind (discover_lights self) (fun lights =>
     ret (0 <? Z.of_nat (List.length lights)))).

End Discovery.

(** For the examples: the percentage of a brightness in exact
    arithmetic, and a placeholder for the text of a value that is not a
    string. *)
Definition example_percent (v : json) : completion Z :=
  match v with
  | JNum q => Ok (Z.quot (Qnum q * 100) (Zpos (Qden q)))
  | _ => Raise (raise_ TypeError "unsupported operand type(s) for *")
  end.

Definition example_str_other (v : json) : string := "?".

(** A light as the service describes it, and without a location. *)
Definition described_light (id label power : string) : json :=
  JObj [("id", JStr id); ("label", JStr label); ("power", JStr power);
        ("brightness", JNum (8 # 10));
        ("location", JObj [("id", JStr "home"); ("name", JStr "Home")])].

Definition unplaced_light (id label power : string) : json :=
  JObj [("id", JStr id); ("label", JStr label); ("power", JStr power);
        ("brightness", JNum (1 # 2))].

End lifx_api.

(** The two functions of the module, beside the class: each builds a
    controller with the token of [secrets] and calls one method. *)
Module lifx_api_functions.

Section Functions.

Import lifx_api.

Context {Env : Type} (http : Env -> Request -> HttpOutcome * Env).
Variable LIFX_TOKEN : string.
Variable percent : json -> completion Z.
Variable str_other : json -> string.

(** [toggle_light(light_selector, timeout=400)]. *)
Definition toggle_light (light_selector : string) (timeout : Z) : M Env ToggleResult :=
  fun w =>
    match lifx_api.__init__ LIFX_TOKEN None timeout with
    | Raise e => (Raise e, w)
    | Ok controller => lifx_api.toggle_light http controller light_selector w
    end.

(** [get_all_lights(timeout=400)]. *)
Definition get_all_lights (timeout : Z) : M Env (list json) :=
  fun w =>
    match lifx_api.__init__ LIFX_TOKEN None timeout with
    | Raise e => (Raise e, w)
    | Ok controller => discover_lights http percent str_other controller w
    end.

End Functions.

End lifx_api_functions.

(** ** [src/main.py] *)

Module main.

Definition DEBOUNCE_TIME : Z := 50.

(** MicroPython's [time.ticks_ms()] counts milliseconds modulo
    [TICKS_PERIOD], which is [2^30] on the ESP32, and
    [time.ticks_diff(ticks1, ticks2)] is the signed distance from
    [ticks2] to [ticks1] on that circle, in
    [-TICKS_PERIOD/2 .. TICKS_PERIOD/2 - 1]. *)
Definition TICKS_PERIOD : Z := 2 ^ 30.

Definition ticks_diff (ticks1 ticks2 : Z) : Z :=
  Z.land (ticks1 - ticks2 + TICKS_PERIOD / 2) (TICKS_PERIOD - 1) - TICKS_PERIOD / 2.

(** The fields of a [LightController] the button handler reads and
    writes: the three LED pins, the time of the last accepted press, the
    ready flag, and the one-shot timers armed so far (each by its period
    in milliseconds; its callback is [self.toggle_light()]). *)
Record LightController : Type := mkLightController {
  system_led : bool;
  error_led : bool;
  success_led : bool;
  last_button_time : Z;
  system_ready : bool;
  timers : list Z
}.

(** [LightController.__init__()]: [setup_hardware] turns the three LEDs
    off, then the fields are set. *)
Definition __init__ : LightController :=
  mkLightController false false false 0 false [].

(** [blink_system_led()]: on, [sleep_ms(BLINK_DURATION)], off. *)
Definition blink_system_led (self : LightController) : LightController :=
  let lit := mkLightController true self.(error_led) self.(success_led)
               self.(last_button_time) self.(system_ready) self.(timers) in
  mkLightController false lit.(error_led) lit.(success_led)
    lit.(last_button_time) lit.(system_ready) lit.(timers).

(** The [return] by which [button_pressed] is left. *)
Inductive Handled : Type :=
| Debounced
| NotReady
| Scheduled.

(** [LightController.button_pressed(pin)], where [current_time] is what
    [time.ticks_ms()] reads when the handler starts. *)
Definition button_pressed (current_time : Z) (self : LightController)
  : Handled * LightController :=
  if ticks_diff current_time self.(last_button_time) <? DEBOUNCE_TIME then
    (Debounced, self)
  else
    let self1 := mkLightController self.(system_led) self.(error_led)
                   self.(success_led) current_time self.(system_ready)
                   self.(timers) in
    if negb self1.(system_ready) then (NotReady, self1)
    else
      let self2 := blink_system_led self1 in
      (Scheduled,
       mkLightController self2.(system_led) self2.(error_led) self2.(success_led)
         self2.(last_button_time) self2.(system_ready) (10 :: self2.(timers))).

(** The debounce gate let the press through. *)
Definition accepted (h : Handled) : bool :=
  match h with
  | Debounced => false
  | _ => true
  end.

End main.

(** The methods of [LightController] that use the network, the radio
    and the clock. *)
Module main_io.

Import lifx_api.
Import main.

Definition WIFI_TIMEOUT : Z := 10000.
Definition API_TIMEOUT : Z := 400.
Definition BLINK_DURATION : Z := 200.
Definition LIFX_BASE_URL : string := "https://api.lifx.com/v1".
Definition DEFAULT_LIGHT : string := "Kitchen".

(** What these methods raise: [Exception(message)], which they raise
    themselves, or an exception of the interpreter or of the HTTP
    library. *)
Inductive Error : Type :=
| Exception_ (message : string)
| Builtin (e : Exc).

(** How a method ends. *)
Inductive outcome (A : Type) : Type :=
| Done (a : A)
| Failed (e : Error).
Arguments Done {A} a.
Arguments Failed {A} e.

(** Assignments to one field of the controller. *)
Definition set_system_led (b : bool) (c : LightController) : LightController :=
  mkLightController b c.(error_led) c.(success_led) c.(last_button_time)
    c.(system_ready) c.(timers).

Definition set_error_led (b : bool) (c : LightController) : LightController :=
  mkLightController c.(system_led) b c.(success_led) c.(last_button_time)
    c.(system_ready) c.(timers).

Definition set_success_led (b : bool) (c : LightController) : LightController :=
  mkLightController c.(system_led) c.(error_led) b c.(last_button_time)
    c.(system_ready) c.(timers).

Definition set_system_ready (b : bool) (c : LightController) : LightController :=
  mkLightController c.(system_led) c.(error_led) c.(success_led) c.(last_button_time)
    b c.(timers).

Section Board.

(** The outside of the program: the cloud service behind the HTTP
    library, the radio and the clock.  [isconnected], [connect] and
    [active] are the methods of the [network.WLAN] object, [ticks_ms]
    and [sleep_ms] the functions of [time]; each may change the state
    of the outside (time passes, the link comes up). *)
Variable Env : Type.
Variable http : Env -> Request -> HttpOutcome * Env.
Variable isconnected : Env -> bool * Env.
Variable connect : Env -> Env.
Variable active : bool -> Env -> Env.
Variable ticks_ms : Env -> Z * Env.
Variable sleep_ms : Z -> Env -> Env.

(** [from secrets import LIFX_TOKEN]. *)
Variable LIFX_TOKEN : string.

(** The program and its outside: the fields of the controller that
    [main.LightController] holds, whether [self.wifi] is set (it is
    [None] until [connect_wifi] runs), and the outside with the log of
    the requests. *)
Record Board : Type := mkBoard {
  controller : LightController;
  wifi : bool;
  world : World Env
}.

Definition with_controller (f : LightController -> LightController) (bd : Board) : Board :=
  mkBoard (f bd.(controller)) bd.(wifi) bd.(world).

Definition with_env (f : Env -> Env) (bd : Board) : Board :=
  mkBoard bd.(controller) bd.(wifi) (mkWorld (f (env bd.(world))) (log bd.(world))).

Definition with_world (w : World Env) (bd : Board) : Board :=
  mkBoard bd.(controller) bd.(wifi) w.

(** [blink_system_led()]. *)
Definition blink_system_led (bd : Board) : Board :=
  with_controller (set_system_led false)
    (with_env (sleep_ms BLINK_DURATION)
       (with_controller (set_system_led true) bd)).

(** [blink_success_led()]. *)
Definition blink_success_led (bd : Board) : Board :=
  with_controller (set_success_led false)
    (with_env (sleep_ms BLINK_DURATION)
       (with_controller (set_success_led true) bd)).

(** [show_error(duration_ms=1000)]. *)
Definition show_error (duration_ms : Z) (bd : Board) : Board :=
  with_controller (set_error_led false)
    (with_env (sleep_ms duration_ms)
       (with_controller (set_error_led true) bd)).

(** The loop of [connect_wifi],
[[
            while not self.wifi.isconnected():
                if time.ticks_diff(time.ticks_ms(), start_time) > WIFI_TIMEOUT:
                    self.error_led.on()
                    raise Exception("WiFi connection timeout")
                time.sleep_ms(100)
]]
    run for at most [fuel] tests of its condition: [Some (true, _)] when
    the link came up, [Some (false, _)] when the time was over, [None]
    when the tests allowed were used up. *)
Fixpoint wait_connected (fuel : nat) (start_time : Z) (e : Env) : option (bool * Env) :=
  match fuel with
  | O => None
  | S fuel' =>
      let (up, e1) := isconnected e in
      if up then Some (true, e1)
      else
        let (now, e2) := ticks_ms e1 in
        if ticks_diff now start_time >? WIFI_TIMEOUT then Some (false, e2)
        else wait_connected fuel' start_time (sleep_ms 100 e2)
  end.

(** The end of [connect_wifi]: the address is read and printed, the
    system LED is lit and the controller is ready. *)
Definition connected (bd : Board) : Board :=
  with_controller (fun c => set_system_ready true (set_system_led true c)) bd.

(** [connect_wifi()], with [fuel] for its loop. *)
Definition connect_wifi (fuel : nat) (bd : Board) : option (outcome unit * Board) :=
  let bd1 := blink_system_led bd in
  let bd2 := with_env (active true) (mkBoard bd1.(controller) true bd1.(world)) in
  let (up, e1) := isconnected (env bd2.(world)) in
  if negb up then
    let e2 := connect e1 in
    let (start_time, e3) := ticks_ms e2 in
    match wait_connected fuel start_time e3 with
    | None => None
    | Some (true, e4) => Some (Done tt, connected (with_env (fun _ => e4) bd2))
    | Some (false, e4) =>
        Some (Failed (Exception_ "WiFi connection timeout"),
              with_controller (set_error_led true) (with_env (fun _ => e4) bd2))
    end
  else Some (Done tt, connected (with_env (fun _ => e1) bd2)).

(** [make_api_request(method, url, data=None)].  Its handler prints the
    exception and raises it again.  With a method other than GET and
    PUT no branch assigns [response], and reading it raises. *)
Definition make_api_request (method url : string) (data : option json)
    (w : World Env) : outcome json * World Env :=
  let headers := [("Authorization", "Bearer " ++ LIFX_TOKEN);
                  ("Content-Type", "application/json")] in
  let (called, w1) :=
    if String.eqb method "GET" then
      match requests_get http url headers (inject_Z API_TIMEOUT / 1000)%Q w with
      | (Ok response, w1) => (Done (Some response), w1)
      | (Raise e, w1) => (Failed (Builtin e), w1)
      end
    else if String.eqb method "PUT" then
      match requests_put http url headers data (inject_Z API_TIMEOUT / 1000)%Q w with
      | (Ok response, w1) => (Done (Some response), w1)
      | (Raise e, w1) => (Failed (Builtin e), w1)
      end
    else (Done None, w) in
  match called with
  | Failed e => (Failed e, w1)
  | Done None =>
      (Failed (Builtin (raise_ UnboundLocalError
                 "cannot access local variable 'response' where it is not associated with a value")),
       w1)
  | Done (Some response) =>
      let r := reply response in
      if negb ((status_code r =? 200) || (status_code r =? 207)) then
        (Failed (Exception_ ("API error: " ++ str_of_Z (status_code r))), w1)
      else
        match json_ r with
        | Raise e => (Failed (Builtin e), w1)
        | Ok result => (Done result, close response w1)
        end
  end.

(** [get_light_state(light_name)]. *)
Definition get_light_state (light_name : string) (w : World Env)
  : outcome json * World Env :=
  let url := LIFX_BASE_URL ++ "/lights/" ++ light_name ++ "/state" in
  match make_api_request "GET" url None w with
  | (Failed e, w1) => (Failed e, w1)
  | (Done response, w1) =>
      if negb (truthy response) then
        (Failed (Exception_ ("No state data for " ++ light_name)), w1)
      else
        match getitem_0 response with
        | Ok first => (Done first, w1)
        | Raise e => (Failed (Builtin e), w1)
        end
  end.

(** [set_light_state(light_name, power, brightness=None)]. *)
Definition set_light_state (light_name power : string) (brightness : option Q)
    (w : World Env) : outcome json * World Env :=
  let url := LIFX_BASE_URL ++ "/lights/" ++ light_name ++ "/state" in
  let data := ([("power", JStr power)] ++
               match brightness with
               | Some b => [("brightness", JNum b)]
               | None => []
               end)%list in
  make_api_request "PUT" url (Some (JObj data)) w.

(** The [try] block of [toggle_light()]. *)
Definition toggle_light_try (bd : Board) : outcome unit * Board :=
  match get_light_state DEFAULT_LIGHT bd.(world) with
  | (Failed e, w1) => (Failed e, with_world w1 bd)
  | (Done current_state, w1) =>
      match getitem current_state "power" with
      | Raise e => (Failed (Builtin e), with_world w1 bd)
      | Ok current_power =>
          let new_power := if eq_str current_power "on" then "off" else "on" in
          match set_light_state DEFAULT_LIGHT new_power None w1 with
          | (Failed e, w2) => (Failed e, with_world w2 bd)
          | (Done _, w2) => (Done tt, blink_success_led (with_world w2 bd))
          end
      end
  end.

(** [toggle_light()]: the [try] block and its handler
[[
        except Exception as e:
            self.show_error()
            if not self.wifi.isconnected():
                try:
                    self.connect_wifi()
                except:
                    print("WiFi reconnection failed")
]]
    With [self.wifi] still [None] the handler raises [AttributeError]. *)
Definition toggle_light (fuel : nat) (bd : Board) : option (outcome unit * Board) :=
  match toggle_light_try bd with
  | (Done tt, bd1) => Some (Done tt, bd1)
  | (Failed _, bd1) =>
      let bd2 := show_error 1000 bd1 in
      if bd2.(wifi) then
        let (up, e1) := isconnected (env bd2.(world)) in
        let bd3 := with_env (fun _ => e1) bd2 in
        if negb up then
          match connect_wifi fuel bd3 with
          | None => None
          | Some (_, bd4) => Some (Done tt, bd4)
          end
        else Some (Done tt, bd3)
      else
        Some (Failed (Builtin (raise_ AttributeError
                        "'NoneType' object has no attribute 'isconnected'")),
              bd2)
  end.

(** [button_pressed(pin)] on the board: the clock is read, the handler
    of [main] runs on the fields of the controller, and the blink of a
    press that is let through takes its time. *)
Definition button_pressed (bd : Board) : Handled * Board :=
  let (current_time, e1) := ticks_ms (env bd.(world)) in
  let (how, c) := main.button_pressed current_time bd.(controller) in
  let bd1 := mkBoard c bd.(wifi) (mkWorld e1 (log bd.(world))) in
  match how with
  | Scheduled => (how, with_env (sleep_ms BLINK_DURATION) bd1)
  | _ => (how, bd1)
  end.

(** [cleanup()]. *)
Definition cleanup (bd : Board) : Board :=
  let bd1 := with_controller
               (fun c => set_success_led false (set_error_led false (set_system_led false c)))
               bd in
  if bd1.(wifi) then with_env (active false) bd1 else bd1.

(** One thing that happens to the board after [LightController()]:
    the button is pressed, a scheduled toggle runs, the WiFi is
    connected, the board is cleaned up. *)
Inductive Step : Type :=
| Press
| Toggle (fuel : nat)
| Connect (fuel : nat)
| Cleanup.

(** The board after a step; a step whose loop runs out of fuel has not
    ended and gives no board. *)
Definition step (s : Step) (bd : Board) : option Board :=
  match s with
  | Press => Some (snd (button_pressed bd))
  | Toggle fuel =>
      match toggle_light fuel bd with
      | Some (_, bd') => Some bd'
      | None => None
      end
  | Connect fuel =>
      match connect_wifi fuel bd with
      | Some (_, bd') => Some bd'
      | None => None
      end
  | Cleanup => Some (cleanup bd)
  end.

Fixpoint run_steps (steps : list Step) (bd : Board) : option Board :=
  match steps with
  | [] => Some bd
  | s :: rest =>
      match step s bd with
      | Some bd' => run_steps rest bd'
      | None => None
      end
  end.

(** The board [LightController()] leaves. *)
Definition boot (e : Env) : Board := mkBoard main.__init__ false (mkWorld e []).

End Board.

Arguments mkBoard {Env} controller wifi world.
Arguments controller {Env} b.
Arguments wifi {Env} b.
Arguments world {Env} b.
Arguments with_controller {Env} f bd.
Arguments with_env {Env} f bd.
Arguments with_world {Env} w bd.
Arguments blink_system_led {Env} sleep_ms bd.
Arguments blink_success_led {Env} sleep_ms bd.
Arguments show_error {Env} sleep_ms duration_ms bd.
Arguments wait_connected {Env} isconnected ticks_ms sleep_ms fuel start_time e.
Arguments connected {Env} bd.
Arguments connect_wifi {Env} isconnected connect active ticks_ms sleep_ms fuel bd.
Arguments make_api_request {Env} http LIFX_TOKEN method url data w.
Arguments get_light_state {Env} http LIFX_TOKEN light_name w.
Arguments set_light_state {Env} http LIFX_TOKEN light_name power brightness w.
Arguments toggle_light_try {Env} http sleep_ms LIFX_TOKEN bd.
Arguments toggle_light {Env} http isconnected connect active ticks_ms sleep_ms
  LIFX_TOKEN fuel bd.
Arguments button_pressed {Env} ticks_ms sleep_ms bd.
Arguments cleanup {Env} active bd.
Arguments step {Env} http isconnected connect active ticks_ms sleep_ms LIFX_TOKEN s bd.
Arguments run_steps {Env} http isconnected connect active ticks_ms sleep_ms
  LIFX_TOKEN steps bd.
Arguments boot {Env} e.

(** The request [make_api_request] sends for a method it knows. *)
Definition api_request (LIFX_TOKEN method url : string) (data : option json) : Request :=
  mkRequest method url
    [("Authorization", "Bearer " ++ LIFX_TOKEN);
     ("Content-Type", "application/json")]
    (if String.eqb method "GET" then None else data)
    (inject_Z API_TIMEOUT / 1000)%Q.

(** A run of presses on the fields of the controller, the clock reading
    each of [times] in turn: the readings of the presses the gate let
    through, in order, and the controller at the end. *)
Fixpoint press_all (times : list Z) (c : LightController) : list Z * LightController :=
  match times with
  | [] => ([], c)
  | t :: rest =>
      let (how, c1) := main.button_pressed t c in
      let (let_through, c2) := press_all rest c1 in
      (if accepted how then t :: let_through else let_through, c2)
  end.

(** Each reading of the list is at least [DEBOUNCE_TIME] after the one
    before it, the first one after [last]. *)
Fixpoint spaced (last : Z) (times : list Z) : Prop :=
  match times with
  | [] => True
  | t :: rest => DEBOUNCE_TIME <= ticks_diff t last /\ spaced t rest
  end.

(** An outside for the examples: a clock that counts the milliseconds
    slept and a link that is up from the time [up_at] on. *)
Record Bench : Type := mkBench { now : Z; up_at : Z; script : list HttpOutcome }.

Definition bench_http (b : Bench) (rq : Request) : HttpOutcome * Bench :=
  let (outcome, rest) := scripted b.(script) rq in
  (outcome, mkBench b.(now) b.(up_at) rest).

Definition bench_isconnected (b : Bench) : bool * Bench := (b.(up_at) <=? b.(now), b).

Definition bench_connect (b : Bench) : Bench := b.

Definition bench_active (on : bool) (b : Bench) : Bench := b.

Definition bench_ticks_ms (b : Bench) : Z * Bench := (b.(now) mod TICKS_PERIOD, b).

Definition bench_sleep_ms (d : Z) (b : Bench) : Bench :=
  mkBench (b.(now) + d) b.(up_at) b.(script).

(** A board on the bench: the controller as given, at the time [t], in
    front of a link that comes up at [up] and a service that plays
    [replies]. *)
Definition on_bench (c : LightController) (wifi_set : bool) (t up : Z)
    (replies : list HttpOutcome) : Board Bench :=
  mkBoard c wifi_set (mkWorld (mkBench t up replies) []).

(** The controller once the WiFi is connected. *)
Definition ready_controller : LightController :=
  mkLightController true false false 0 true [].

End main_io.

(** * Properties *)

(** ** The request and its cleanup *)

Section ClientFacts.

Import lifx_api.

Context {Env : Type} (http : Env -> Request -> HttpOutcome * Env).

(** Whatever leaves a method closed by the two handlers is a
    [LIFXAPIError]. *)
Lemma except_LIFXAPIError_raises {A : Type} (prefix : string) (m : M Env A)
    (w w' : World Env) (e : Exc) :
  except_LIFXAPIError prefix m w = (Raise e, w') -> is_LIFXAPIError e = true.
Proof.
  unfold except_LIFXAPIError.
  destruct (m w) as [[a | e0] w0]; [discriminate |].
  destruct (is_LIFXAPIError e0) eqn:He0; intros H; inversion H; subst; auto.
Qed.

(** The handlers let a [LIFXAPIError] through untouched. *)
Lemma except_LIFXAPIError_passes {A : Type} (prefix : string) (m : M Env A)
    (w w' : World Env) (e : Exc) :
  m w = (Raise e, w') -> is_LIFXAPIError e = true ->
  except_LIFXAPIError prefix m w = (Raise e, w').
Proof.
  intros Hm He. unfold except_LIFXAPIError. now rewrite Hm, He.
Qed.

Lemma except_LIFXAPIError_ok {A : Type} (prefix : string) (m : M Env A)
    (w w' : World Env) (a : A) :
  except_LIFXAPIError prefix m w = (Ok a, w') <-> m w = (Ok a, w').
Proof.
  unfold except_LIFXAPIError.
  destruct (m w) as [[a0 | e0] w0].
  - tauto.
  - destruct (is_LIFXAPIError e0); split; discriminate.
Qed.

(** The handlers leave the world as the body left it. *)
Lemma except_LIFXAPIError_world {A : Type} (prefix : string) (m : M Env A)
    (w : World Env) :
  snd (except_LIFXAPIError prefix m w) = snd (m w).
Proof.
  unfold except_LIFXAPIError.
  destruct (m w) as [[a0 | e0] w0]; [reflexivity |].
  destruct (is_LIFXAPIError e0); reflexivity.
Qed.

(** What one call of the HTTP library adds to the log. *)
Lemma requests_send_log (rq : Request) (w : World Env) :
  match requests_send http rq w with
  | (Raise _, w') => log w' = Sent rq :: log w
  | (Ok response, w') =>
      log w' = Opened (handle response) :: Sent rq :: log w
  end.
Proof.
  unfold requests_send.
  destruct (http (env w) rq) as [[e | r] env']; reflexivity.
Qed.

Lemma make_request_trace (self : LIFXController) (method endpoint : string)
    (data : option json) (w : World Env) :
  exists delta,
    log (snd (_make_request http self method endpoint data w)) = (delta ++ log w)%list /\
    request_trace self method endpoint data (log w) delta.
Proof.
  unfold _make_request, _make_request_try, requests_get, requests_put, request_of.
  destruct (String.eqb method "GET") eqn:Hget.
  - apply String.eqb_eq in Hget; subst method.
    unfold requests_send.
    destruct (http (env w) _) as [[e | r] env'] eqn:Hhttp; cbn.
    + eexists; split; [| apply trace_no_response]. reflexivity.
    + destruct (negb _); [| destruct (json_ r)]; cbn;
        try destruct (is_LIFXAPIError _); cbn;
        (eexists; split; [| apply trace_released]); reflexivity.
  - destruct (String.eqb method "PUT") eqn:Hput.
    + apply String.eqb_eq in Hput; subst method.
      unfold requests_send.
      destruct (http (env w) _) as [[e | r] env'] eqn:Hhttp; cbn.
      * eexists; split; [| apply trace_no_response]. reflexivity.
      * destruct (negb _); [| destruct (json_ r)]; cbn;
          try destruct (is_LIFXAPIError _); cbn;
          (eexists; split; [| apply trace_released]); reflexivity.
    + cbn. exists []. split; [reflexivity | now apply trace_unsupported].
Qed.

(** Every path through [_make_request] leaves the log balanced, and
    closes what it opened and nothing else. *)
Lemma request_trace_balanced (self : LIFXController) (method endpoint : string)
    (data : option json) (old delta : list Event) :
  request_trace self method endpoint data old delta ->
  unreleased delta = [] /\
  (forall h, In (Opened h) delta -> hd_error delta = Some (Closed h)) /\
  (forall h, In (Closed h) delta -> In (Opened h) delta).
Proof.
  intros [Hg Hp | |]; repeat split; cbn; try rewrite Nat.eqb_refl; cbn;
    try reflexivity; intros h H;
    repeat (destruct H as [H | H]; try discriminate; try contradiction);
    inversion H; auto.
Qed.

(** A request reaches the service only with the method GET or PUT, and
    carries that method. *)
Lemma request_trace_writes (self : LIFXController) (method endpoint : string)
    (data : option json) (old delta : list Event) :
  request_trace self method endpoint data old delta ->
  writes delta = [] \/
  (method = "PUT" /\ writes delta = [Sent (request_of self method endpoint data)]).
Proof.
  intros [Hg Hp | |]; cbn; auto;
    destruct (String.eqb method "PUT") eqn:Hput; auto;
    apply String.eqb_eq in Hput; auto.
Qed.

(** C9, as amended. Whenever [_make_request] ends with an exception,
    with whatever method, endpoint and body and whatever the HTTP
    library did, every response object the call obtained was closed,
    closing it is the last thing recorded before the exception leaves
    the method, and the stretch of log the call added leaves no
    connection handle open.  The call closes nothing but a response
    it obtained: when the library raised before handing one back,
    nothing is closed. *)
Theorem make_request_releases_on_error (self : LIFXController)
    (method endpoint : string) (data : option json) (w w' : World Env) (e : Exc) :
  _make_request http self method endpoint data w = (Raise e, w') ->
  exists delta,
    log w' = (delta ++ log w)%list /\
    unreleased delta = [] /\
    (forall h, In (Opened h) delta -> hd_error delta = Some (Closed h)) /\
    (forall h, In (Closed h) delta -> In (Opened h) delta).
Proof.
  intros Hrun.
  destruct (make_request_trace self method endpoint data w) as (delta & Hlog & Htrace).
  rewrite Hrun in Hlog. cbn in Hlog.
  exists delta. split; [exact Hlog |].
  eapply request_trace_balanced; eassumption.
Qed.

(** When the HTTP call itself raises, the handler of [_make_request]
    reads the unbound [response]: what leaves the method is the
    handler's own [UnboundLocalError], after the request and nothing
    else was logged. *)
Lemma make_request_library_raises (self : LIFXController) (endpoint : string)
    (w : World Env) (e : Exc) (env' : Env) :
  http (env w) (request_of self "GET" endpoint None) = (Raises e, env') ->
  exists e',
    _make_request http self "GET" endpoint None w =
      (Raise e', mkWorld env' (Sent (request_of self "GET" endpoint None) :: log w)) /\
    exc_class e' = UnboundLocalError.
Proof.
  intros Hhttp.
  unfold _make_request, _make_request_try, requests_get, requests_send.
  cbn. unfold request_of in Hhttp. cbn in Hhttp. rewrite Hhttp. cbn.
  eexists. split; reflexivity.
Qed.

(** A read adds no write request to the log. *)
Lemma get_light_state_writes (self : LIFXController) (light_selector : string)
    (w : World Env) :
  writes (log (snd (get_light_state http self light_selector w))) = writes (log w).
Proof.
  unfold get_light_state. rewrite except_LIFXAPIError_world.
  unfold bind.
  destruct (make_request_trace self "GET" ("lights/" ++ light_selector) None w)
    as (delta & Hlog & Htrace).
  destruct (_make_request http self "GET" _ None w) as [[lights | e] w1] eqn:Hrun.
  - cbn in Hlog.
    assert (Hw : writes (log w1) = writes (log w)).
    { rewrite Hlog. unfold writes. rewrite filter_app.
      destruct (request_trace_writes _ _ _ _ _ _ Htrace) as [H | [H _]];
        [unfold writes in H; now rewrite H | discriminate]. }
    destruct (negb (truthy lights)); exact Hw.
  - cbn in Hlog. cbn. rewrite Hlog. unfold writes. rewrite filter_app.
    destruct (request_trace_writes _ _ _ _ _ _ Htrace) as [H | [H _]];
      [unfold writes in H; now rewrite H | discriminate].
Qed.

(** C4. If the state query of a toggle raises, [toggle_light] raises
    that same exception, in the world the query left, and the log of
    that world holds no write request that was not there before the
    toggle started. *)
Theorem toggle_light_query_fails (self : LIFXController) (light_selector : string)
    (w w' : World Env) (e : Exc) :
  get_light_state http self light_selector w = (Raise e, w') ->
  toggle_light http self light_selector w = (Raise e, w') /\
  writes (log w') = writes (log w).
Proof.
  intros Hget. split.
  - unfold toggle_light.
    apply except_LIFXAPIError_passes.
    + unfold bind. now rewrite Hget.
    + eapply except_LIFXAPIError_raises. exact Hget.
  - pose proof (get_light_state_writes self light_selector w) as Hw.
    now rewrite Hget in Hw.
Qed.

(** C10. With [power], [brightness] and [color] all absent,
    [set_light_state] raises the API error "No state changes specified"
    and leaves the world as it found it: the service is not called and
    nothing is logged. *)
Theorem set_light_state_nothing_to_set (self : LIFXController)
    (light_selector : string) (w : World Env) :
  set_light_state http self light_selector None None None w =
    (Raise (raise_ LIFXAPIError "No state changes specified"), w).
Proof. reflexivity. Qed.

(** ** The toggle *)

(** The write of a power value always reaches the library, exactly
    once, whatever comes back. *)
Lemma set_light_state_power_log (self : LIFXController) (light_selector power : string)
    (w : World Env) :
  exists delta,
    log (snd (set_light_state http self light_selector (Some power) None None w)) =
      (delta ++ log w)%list /\
    writes delta = [Sent (power_write self light_selector power)].
Proof.
  unfold set_light_state. cbn [state_payload app truthy negb].
  rewrite except_LIFXAPIError_world. unfold bind.
  destruct (make_request_trace self "PUT" ("lights/" ++ light_selector ++ "/state")
              (Some (JObj [("power", JStr power)])) w) as (delta & Hlog & Htrace).
  exists delta. split.
  - destruct (_make_request http self "PUT" _ _ w) as [[result | e] w1]; exact Hlog.
  - destruct Htrace as [Hg Hp | |]; [discriminate | reflexivity | reflexivity].
Qed.

(** Past a query that returned, [toggle_light] is the write of the
    opposite of the power of the first light, and its outcome is the
    outcome of that write. *)
Lemma toggle_light_step (self : LIFXController) (light_selector : string)
    (w w1 : World Env) (lights first current_power : json) :
  get_light_state http self light_selector w = (Ok lights, w1) ->
  getitem_0 lights = Ok first ->
  getitem first "power" = Ok current_power ->
  let new_power := if eq_str current_power "on" then "off" else "on" in
  toggle_light http self light_selector w =
    match set_light_state http self light_selector (Some new_power) None None w1 with
    | (Ok result, w2) => (Ok (mkToggleResult current_power new_power result true), w2)
    | (Raise e, w2) => (Raise e, w2)
    end.
Proof.
  intros Hget Hfirst Hpower new_power.
  unfold toggle_light, except_LIFXAPIError at 1, bind, lift, ret.
  rewrite Hget, Hfirst, Hpower. fold new_power.
  destruct (set_light_state http self light_selector (Some new_power) None None w1)
    as [[result | e] w2] eqn:Hset; [reflexivity |].
  unfold set_light_state in Hset. cbn [state_payload app truthy negb] in Hset.
  apply except_LIFXAPIError_raises in Hset. now rewrite Hset.
Qed.

(** What a toggle that returned has done. *)
Lemma toggle_light_returns (self : LIFXController) (light_selector : string)
    (w w' : World Env) (r : ToggleResult) :
  toggle_light http self light_selector w = (Ok r, w') ->
  r.(new_power) = (if eq_str r.(old_power) "on" then "off" else "on") /\
  r.(success) = true /\
  writes (log w') = Sent (power_write self light_selector r.(new_power)) :: writes (log w).
Proof.
  intros Hrun.
  destruct (get_light_state http self light_selector w) as [[lights | e] w1] eqn:Hget.
  2:{ unfold toggle_light, except_LIFXAPIError, bind in Hrun.
      rewrite Hget in Hrun. destruct (is_LIFXAPIError e); discriminate. }
  destruct (getitem_0 lights) as [first | e] eqn:Hfirst.
  2:{ unfold toggle_light, except_LIFXAPIError, bind, lift in Hrun.
      rewrite Hget, Hfirst in Hrun. destruct (is_LIFXAPIError e); discriminate. }
  destruct (getitem first "power") as [current_power | e] eqn:Hpower.
  2:{ unfold toggle_light, except_LIFXAPIError, bind, lift in Hrun.
      rewrite Hget, Hfirst, Hpower in Hrun. destruct (is_LIFXAPIError e); discriminate. }
  rewrite (toggle_light_step self light_selector w w1 lights first current_power
             Hget Hfirst Hpower) in Hrun.
  cbv zeta in Hrun.
  set (written := if eq_str current_power "on" then "off" else "on") in *.
  destruct (set_light_state_power_log self light_selector written w1)
    as (delta & Hlog & Hwrites).
  pose proof (get_light_state_writes self light_selector w) as Hread.
  rewrite Hget in Hread. cbn in Hread.
  destruct (set_light_state http self light_selector (Some written) None None w1)
    as [[result | e] w2]; [| discriminate].
  inversion Hrun; subst. cbn in *.
  repeat split.
  rewrite Hlog. unfold writes in *. rewrite filter_app, Hwrites, Hread. reflexivity.
Qed.

(** C1, as amended. When the state query returns a list whose first
    entry has power "on", [toggle_light] issues exactly one write, with
    power "off" and nothing else in its body (and with power "on" when
    the first entry has power "off"), whatever the other entries of the
    list are.  When that write returns, the toggle returns the queried
    power as [old_power], its opposite as [new_power], the reply of the
    write and [success] true; when the write raises, the toggle raises
    the same exception. *)
Theorem toggle_light_first_entry (self : LIFXController) (light_selector : string)
    (w w1 : World Env) (first : json) (rest : list json) (p : PowerState) :
  get_light_state http self light_selector w = (Ok (JArr (first :: rest)), w1) ->
  getitem first "power" = Ok (JStr (power_str p)) ->
  let written := power_str (negate p) in
  let write := set_light_state http self light_selector (Some written) None None w1 in
  (exists delta,
      log (snd (toggle_light http self light_selector w)) = (delta ++ log w1)%list /\
      writes delta = [Sent (power_write self light_selector written)]) /\
  (forall result, fst write = Ok result ->
      fst (toggle_light http self light_selector w) =
        Ok (mkToggleResult (JStr (power_str p)) written result true)) /\
  (forall e, fst write = Raise e ->
      fst (toggle_light http self light_selector w) = Raise e).
Proof.
  intros Hget Hpower written write.
  pose proof (toggle_light_step self light_selector w w1 _ first _ Hget eq_refl Hpower)
    as Hstep.
  cbv zeta in Hstep.
  assert (Hwritten : (if eq_str (JStr (power_str p)) "on" then "off" else "on") = written)
    by (destruct p; reflexivity).
  rewrite Hwritten in Hstep. fold write in Hstep.
  destruct (set_light_state_power_log self light_selector written w1)
    as (delta & Hlog & Hwrites).
  fold write in Hlog.
  rewrite Hstep.
  destruct write as [[result | e] w2]; cbn in *;
    (split; [exists delta; auto | split; intros x Hx; inversion Hx; reflexivity]).
Qed.

(** C5, as amended. When the power of the first entry is neither "on"
    nor "off", whatever value it is, [toggle_light] takes "on" as the
    new power and issues exactly one write, with power "on"; no error
    is raised for the value.  When that write returns, the toggle
    returns the value as [old_power], "on" as [new_power] and [success]
    true; when the write raises, the toggle raises the same exception. *)
Theorem toggle_light_other_power (self : LIFXController) (light_selector : string)
    (w w1 : World Env) (first current_power : json) (rest : list json) :
  get_light_state http self light_selector w = (Ok (JArr (first :: rest)), w1) ->
  getitem first "power" = Ok current_power ->
  eq_str current_power "on" = false ->
  eq_str current_power "off" = false ->
  let write := set_light_state http self light_selector (Some "on") None None w1 in
  (exists delta,
      log (snd (toggle_light http self light_selector w)) = (delta ++ log w1)%list /\
      writes delta = [Sent (power_write self light_selector "on")]) /\
  (forall result, fst write = Ok result ->
      fst (toggle_light http self light_selector w) =
        Ok (mkToggleResult current_power "on" result true)) /\
  (forall e, fst write = Raise e ->
      fst (toggle_light http self light_selector w) = Raise e).
Proof.
  intros Hget Hpower Hon _ write.
  pose proof (toggle_light_step self light_selector w w1 _ first _ Hget eq_refl Hpower)
    as Hstep.
  cbv zeta in Hstep. rewrite Hon in Hstep. fold write in Hstep.
  destruct (set_light_state_power_log self light_selector "on" w1)
    as (delta & Hlog & Hwrites).
  fold write in Hlog.
  rewrite Hstep.
  destruct write as [[result | e] w2]; cbn in *;
    (split; [exists delta; auto | split; intros x Hx; inversion Hx; reflexivity]).
Qed.

(** C6. Two toggles in a row that both return, the first having read
    the power state [p] and the second having read the power the first
    one wrote, end with a write of [p]: the last power written is the
    power observed before the first toggle, and the two toggles issued
    these two writes and no other. *)
Theorem toggle_light_twice (self : LIFXController) (light_selector : string)
    (w0 w1 w2 : World Env) (r1 r2 : ToggleResult) (p : PowerState) :
  toggle_light http self light_selector w0 = (Ok r1, w1) ->
  toggle_light http self light_selector w1 = (Ok r2, w2) ->
  r1.(old_power) = JStr (power_str p) ->
  r2.(old_power) = JStr r1.(new_power) ->
  r2.(new_power) = power_str p /\
  writes (log w2) =
    Sent (power_write self light_selector (power_str p)) ::
    Sent (power_write self light_selector (power_str (negate p))) ::
    writes (log w0).
Proof.
  intros Hfirst Hsecond Hseen Hread.
  apply toggle_light_returns in Hfirst. destruct Hfirst as (Hnew1 & _ & Hlog1).
  apply toggle_light_returns in Hsecond. destruct Hsecond as (Hnew2 & _ & Hlog2).
  rewrite Hseen in Hnew1.
  assert (H1 : r1.(new_power) = power_str (negate p)) by (destruct p; exact Hnew1).
  rewrite Hread, H1 in Hnew2.
  assert (H2 : r2.(new_power) = power_str p) by (destruct p; exact Hnew2).
  split; [exact H2 |].
  rewrite Hlog2, Hlog1, H1, H2. reflexivity.
Qed.

(** The count of the entries that report "ok". *)
Lemma success_count_entries (results : list (list (string * json))) :
  exists n, success_count (map JObj results) = Ok n /\ 0 <= n /\
            (n = 0 <-> existsb reports_ok results = false).
Proof.
  induction results as [| entry rest (n & Hn & Hpos & Hzero)]; cbn.
  - exists 0. repeat split; auto; lia.
  - rewrite Hn. unfold reports_ok at 1.
    destruct (assoc "status" entry) as [status |]; cbn.
    + destruct (eq_str status "ok"); cbn.
      * exists (1 + n). repeat split; try lia; discriminate.
      * exists n. auto.
    + exists n. auto.
Qed.

(** C3. When the reply to a write is an object whose ["results"] is a
    list of per-light entries, [set_light_state] returns that reply as
    soon as one entry has status "ok", whatever the other entries say,
    and raises the API error "No lights were successfully updated" when
    no entry has. *)
Theorem set_light_state_bulk_results (self : LIFXController) (light_selector : string)
    (power : option string) (brightness : option Q) (color : option string)
    (w w1 : World Env) (fields : list (string * json))
    (results : list (list (string * json))) :
  state_payload power brightness color <> [] ->
  _make_request http self "PUT" ("lights/" ++ light_selector ++ "/state")
    (Some (JObj (state_payload power brightness color))) w = (Ok (JObj fields), w1) ->
  assoc "results" fields = Some (JArr (map JObj results)) ->
  (existsb reports_ok results = true ->
     set_light_state http self light_selector power brightness color w =
       (Ok (JObj fields), w1)) /\
  (existsb reports_ok results = false ->
     set_light_state http self light_selector power brightness color w =
       (Raise (raise_ LIFXAPIError "No lights were successfully updated"), w1)).
Proof.
  intros Hstate Hput Hresults.
  unfold set_light_state.
  destruct (state_payload power brightness color) as [| item items] eqn:Hpayload;
    [contradiction |].
  cbn [truthy negb].
  unfold except_LIFXAPIError, bind, lift. rewrite Hput.
  unfold check_results. cbn [contains bind_result getitem]. rewrite Hresults.
  cbn [bind_result iterate].
  destruct (success_count_entries results) as (n & Hn & Hpos & Hzero).
  rewrite Hn. cbn [bind_result].
  split; intros Hok.
  - destruct (n =? 0) eqn:Hn0; [| reflexivity].
    apply Z.eqb_eq in Hn0. apply Hzero in Hn0. congruence.
  - apply Hzero in Hok. subst n. reflexivity.
Qed.

End ClientFacts.

(** ** Construction *)

Section Construction.

Import lifx_api.

Variable LIFX_TOKEN : string.

(** C8. [LIFXController(api_token, timeout)] raises the API error
    "Invalid LIFX API token format" exactly when the effective token
    ([api_token], or [LIFX_TOKEN] when [api_token] is absent or empty)
    is not 64 characters long, and otherwise returns a controller that
    holds that token. *)
Theorem init_token_length (token : option string) (timeout_ms : Z) :
  let effective := effective_token LIFX_TOKEN token in
  (String.length effective = 64%nat <->
     __init__ LIFX_TOKEN token timeout_ms =
       Ok (mkLIFXController effective (inject_Z timeout_ms / 1000)%Q
             "https://api.lifx.com/v1")) /\
  (String.length effective <> 64%nat <->
     __init__ LIFX_TOKEN token timeout_ms =
       Raise (raise_ LIFXAPIError "Invalid LIFX API token format")).
Proof.
  intros effective. unfold __init__. fold effective. cbn [api_token truthy].
  destruct (Nat.eqb (String.length effective) 64) eqn:Hlen.
  - apply Nat.eqb_eq in Hlen.
    assert (Hne : String.eqb effective "" = false).
    { destruct effective; [discriminate | reflexivity]. }
    rewrite Hne. cbn.
    split; split; intros H; auto; try contradiction; discriminate.
  - apply Nat.eqb_neq in Hlen.
    rewrite orb_true_r.
    split; split; intros H; auto; try contradiction; discriminate.
Qed.

End Construction.

(** ** The debounce gate *)

Section Debounce.

Import main.

(** [ticks_diff] is the residue of the difference, shifted to the
    signed half-open range around zero. *)
Lemma ticks_diff_mod (ticks1 ticks2 : Z) :
  ticks_diff ticks1 ticks2 =
    (ticks1 - ticks2 + TICKS_PERIOD / 2) mod TICKS_PERIOD - TICKS_PERIOD / 2.
Proof.
  unfold ticks_diff, TICKS_PERIOD.
  change (2 ^ 30 - 1) with (Z.ones 30).
  rewrite Z.land_ones by lia. reflexivity.
Qed.

(** Across a wrap of the counter, [ticks_diff] still is the time that
    passed, as long as less than half a period passed. *)
Lemma ticks_diff_elapsed (t0 d : Z) :
  0 <= d < TICKS_PERIOD / 2 ->
  ticks_diff ((t0 + d) mod TICKS_PERIOD) (t0 mod TICKS_PERIOD) = d.
Proof.
  intros Hd. rewrite ticks_diff_mod.
  assert (HP : TICKS_PERIOD = 2 * (TICKS_PERIOD / 2)) by reflexivity.
  assert (Hhalf : 0 < TICKS_PERIOD / 2) by reflexivity.
  replace ((t0 + d) mod TICKS_PERIOD - t0 mod TICKS_PERIOD + TICKS_PERIOD / 2)
    with ((t0 + d) mod TICKS_PERIOD + (TICKS_PERIOD / 2 - t0 mod TICKS_PERIOD)) by lia.
  rewrite Zplus_mod_idemp_l.
  replace (t0 + d + (TICKS_PERIOD / 2 - t0 mod TICKS_PERIOD))
    with (t0 + d + TICKS_PERIOD / 2 - t0 mod TICKS_PERIOD) by lia.
  rewrite Zminus_mod_idemp_r.
  replace (t0 + d + TICKS_PERIOD / 2 - t0) with (d + TICKS_PERIOD / 2) by lia.
  rewrite Z.mod_small by lia. lia.
Qed.

(** The gate in the measure the handler uses.  For every reading of the
    clock and every time of the last accepted press, [button_pressed]
    ignores a press whose [ticks_diff] to the last accepted one is less
    than [DEBOUNCE_TIME] and lets through a press at 50 or more;
    [last_button_time] becomes the time of the press when the press is
    let through and keeps its value when it is ignored, and an ignored
    press changes nothing else either.  How [ticks_diff] relates to the
    time that passed is the matter of [button_pressed_elapsed] and of
    [button_pressed_wrapped]. *)
Theorem button_pressed_debounce (current_time : Z) (self : LightController) :
  let since := ticks_diff current_time self.(last_button_time) in
  let how := fst (button_pressed current_time self) in
  let self' := snd (button_pressed current_time self) in
  (since < DEBOUNCE_TIME <-> accepted how = false) /\
  (DEBOUNCE_TIME <= since <-> accepted how = true) /\
  self'.(last_button_time) =
    (if accepted how then current_time else self.(last_button_time)) /\
  (accepted how = false -> self' = self).
Proof.
  cbv zeta. unfold button_pressed.
  destruct (Z.ltb_spec (ticks_diff current_time self.(last_button_time)) DEBOUNCE_TIME)
    as [Hlt | Hge].
  - cbn. repeat split; auto; intros; try lia; discriminate.
  - cbn [system_ready]. destruct (system_ready self); cbn;
      repeat split; auto; intros; try lia; discriminate.
Qed.

(** In time that really passed: a press [d] milliseconds after the last
    accepted one, with [d] below half a period of the counter and
    wherever the counter wrapped, is let through exactly when [d] is at
    least 50. *)
Lemma button_pressed_elapsed (t0 d : Z) (self : LightController) :
  self.(last_button_time) = t0 mod TICKS_PERIOD ->
  0 <= d < TICKS_PERIOD / 2 ->
  accepted (fst (button_pressed ((t0 + d) mod TICKS_PERIOD) self)) = (50 <=? d).
Proof.
  intros Hlast Hd. unfold button_pressed.
  rewrite Hlast, ticks_diff_elapsed by exact Hd.
  unfold DEBOUNCE_TIME.
  destruct (Z.ltb_spec d 50); destruct (Z.leb_spec 50 d); try lia; try reflexivity;
    cbn; destruct (system_ready self); reflexivity.
Qed.

(** C7. The first press after start-up is not always let through:
    [__init__] sets [last_button_time] to 0, so a first press while the
    clock reads less than 50 (0 as in the repository's debounce test,
    or 10) is ignored, and so is a first press once the clock has
    passed half its period (600000000 ms, a week after start-up). *)
Theorem first_press_ignored :
  button_pressed 0 __init__ = (Debounced, __init__) /\
  button_pressed 10 __init__ = (Debounced, __init__) /\
  button_pressed 600000000 __init__ = (Debounced, __init__).
Proof. repeat split. Qed.

(** The first press is let through exactly when the clock reads at
    least 50 and less than half a period. *)
Lemma first_press_accepted_iff (current_time : Z) :
  0 <= current_time < TICKS_PERIOD ->
  accepted (fst (button_pressed current_time __init__)) = true <->
  50 <= current_time < TICKS_PERIOD / 2.
Proof.
  intros Hrange. unfold button_pressed. cbn [last_button_time __init__].
  rewrite ticks_diff_mod, Z.sub_0_r.
  assert (HP : TICKS_PERIOD = 2 * (TICKS_PERIOD / 2)) by reflexivity.
  assert (Hhalf : TICKS_PERIOD / 2 = 536870912) by reflexivity.
  unfold DEBOUNCE_TIME.
  destruct (Z_lt_ge_dec current_time (TICKS_PERIOD / 2)) as [Hlow | Hhigh].
  - rewrite Z.mod_small by lia.
    destruct (Z.ltb_spec (current_time + TICKS_PERIOD / 2 - TICKS_PERIOD / 2) 50);
      cbn; split; intros; try lia; try discriminate; reflexivity.
  - replace (current_time + TICKS_PERIOD / 2)
      with (current_time - TICKS_PERIOD / 2 + 1 * TICKS_PERIOD) by lia.
    rewrite Z_mod_plus_full, Z.mod_small by lia.
    destruct (Z.ltb_spec (current_time - TICKS_PERIOD / 2 - TICKS_PERIOD / 2) 50);
      cbn; split; intros; try lia; try discriminate.
Qed.

End Debounce.

(** * Examples *)

Section Examples.

Import lifx_api.

(** The client closes nothing when the library itself raises: the
    request is all there is in the log when the exception leaves
    [_make_request], and the exception is the handler's own. *)
Lemma make_request_timeout_closes_nothing :
  let run := _make_request scripted fixture_controller "GET" "lights/label:Kitchen" None
               (playing [timed_out]) in
  (exists e, fst run = Raise e /\ exc_class e = UnboundLocalError) /\
  log (snd run) =
    [Sent (request_of fixture_controller "GET" "lights/label:Kitchen" None)] /\
  (forall h, ~ In (Closed h) (log (snd run))).
Proof.
  cbv zeta. split; [eexists; split; reflexivity |].
  split; [reflexivity |].
  intros h [H | []]. discriminate.
Qed.

(** A request answered with status 500: the response is closed before
    the error leaves. *)
Lemma make_request_releases_on_error_witness :
  let w := playing [server_error] in
  let run := _make_request scripted fixture_controller "GET" "lights/label:Kitchen" None w in
  run = (Raise (raise_ LIFXAPIError "HTTP 500: Internal Server Error"), snd run) /\
  exists delta,
    log (snd run) = (delta ++ log w)%list /\
    unreleased delta = [] /\
    (forall h, In (Opened h) delta -> hd_error delta = Some (Closed h)) /\
    (forall h, In (Closed h) delta -> In (Opened h) delta).
Proof.
  cbv zeta. split; [reflexivity |].
  apply (make_request_releases_on_error scripted fixture_controller
           "GET" "lights/label:Kitchen" None (playing [server_error]) _
           (raise_ LIFXAPIError "HTTP 500: Internal Server Error")).
  reflexivity.
Defined.

(** The query returns a list whose first entry has power "on", the write
    of "off" goes out, and the toggle returns no result: the write was
    answered with status 500 and the toggle raises. *)
Lemma toggle_light_write_refused :
  let w := playing [lights_reply [light "on"]; server_error] in
  let run := toggle_light scripted fixture_controller "label:Kitchen" w in
  fst (get_light_state scripted fixture_controller "label:Kitchen" w) =
    Ok (JArr [light "on"]) /\
  writes (log (snd run)) = [Sent (power_write fixture_controller "label:Kitchen" "off")] /\
  fst run = Raise (raise_ LIFXAPIError "HTTP 500: Internal Server Error") /\
  (forall r, fst run <> Ok r).
Proof.
  cbv zeta. repeat split. intros r H. discriminate.
Qed.

(** Two lights, the first one on: the write carries "off" and the toggle
    returns. *)
Lemma toggle_light_first_entry_witness :
  let w := playing [lights_reply [light "on"; light "off"];
                    results_reply [JObj (entry "ok"); JObj (entry "ok")]] in
  let w1 := snd (get_light_state scripted fixture_controller "label:Kitchen" w) in
  let run := toggle_light scripted fixture_controller "label:Kitchen" w in
  get_light_state scripted fixture_controller "label:Kitchen" w =
    (Ok (JArr [light "on"; light "off"]), w1) /\
  getitem (light "on") "power" = Ok (JStr (power_str On)) /\
  (exists delta,
      log (snd run) = (delta ++ log w1)%list /\
      writes delta = [Sent (power_write fixture_controller "label:Kitchen" "off")]) /\
  fst run = Ok (mkToggleResult (JStr "on") "off"
                  (JObj [("results", JArr [JObj (entry "ok"); JObj (entry "ok")])]) true).
Proof.
  cbv zeta. split; [reflexivity |]. split; [reflexivity |].
  destruct (toggle_light_first_entry scripted fixture_controller "label:Kitchen"
              (playing [lights_reply [light "on"; light "off"];
                        results_reply [JObj (entry "ok"); JObj (entry "ok")]])
              _ (light "on") [light "off"] On eq_refl eq_refl)
    as (Hwrite & Hok & _).
  split; [exact Hwrite |].
  apply Hok. reflexivity.
Defined.

(** A light that reports "standby": the toggle raises nothing, takes
    "on" as the new power, writes it and returns. *)
Lemma toggle_light_standby :
  let w := playing [lights_reply [light "standby"]; results_reply [JObj (entry "ok")]] in
  let run := toggle_light scripted fixture_controller "label:Kitchen" w in
  fst (get_light_state scripted fixture_controller "label:Kitchen" w) =
    Ok (JArr [light "standby"]) /\
  writes (log (snd run)) = [Sent (power_write fixture_controller "label:Kitchen" "on")] /\
  fst run = Ok (mkToggleResult (JStr "standby") "on"
                  (JObj [("results", JArr [JObj (entry "ok")])]) true).
Proof.
  cbv zeta. repeat split.
Qed.

Lemma toggle_light_other_power_witness :
  let w := playing [lights_reply [light "standby"]; results_reply [JObj (entry "ok")]] in
  let w1 := snd (get_light_state scripted fixture_controller "label:Kitchen" w) in
  let run := toggle_light scripted fixture_controller "label:Kitchen" w in
  get_light_state scripted fixture_controller "label:Kitchen" w =
    (Ok (JArr [light "standby"]), w1) /\
  getitem (light "standby") "power" = Ok (JStr "standby") /\
  eq_str (JStr "standby") "on" = false /\
  eq_str (JStr "standby") "off" = false /\
  (exists delta,
      log (snd run) = (delta ++ log w1)%list /\
      writes delta = [Sent (power_write fixture_controller "label:Kitchen" "on")]) /\
  fst run = Ok (mkToggleResult (JStr "standby") "on"
                  (JObj [("results", JArr [JObj (entry "ok")])]) true).
Proof.
  cbv zeta. do 4 (split; [reflexivity |]).
  destruct (toggle_light_other_power scripted fixture_controller "label:Kitchen"
              (playing [lights_reply [light "standby"]; results_reply [JObj (entry "ok")]])
              _ (light "standby") (JStr "standby") [] eq_refl eq_refl eq_refl eq_refl)
    as (Hwrite & Hok & _).
  split; [exact Hwrite |].
  apply Hok. reflexivity.
Defined.

(** A query that times out: the toggle raises what the query raised and
    no write is in the log. *)
Lemma toggle_light_query_fails_witness :
  let w := playing [timed_out; results_reply [JObj (entry "ok")]] in
  let query := get_light_state scripted fixture_controller "label:Kitchen" w in
  (exists e, query = (Raise e, snd query) /\
             toggle_light scripted fixture_controller "label:Kitchen" w = (Raise e, snd query)) /\
  writes (log (snd query)) = writes (log w).
Proof.
  cbv zeta.
  destruct (toggle_light_query_fails scripted fixture_controller "label:Kitchen"
              (playing [timed_out; results_reply [JObj (entry "ok")]]) _ _ eq_refl)
    as (Htoggle & Hwrites).
  split; [| exact Hwrites].
  eexists. split; [reflexivity | exact Htoggle].
Defined.

(** The service with one light, switched on, toggled twice. *)
Lemma toggle_light_twice_witness :
  let w0 := mkWorld "on" [] in
  let first := toggle_light one_light fixture_controller "label:Kitchen" w0 in
  let second := toggle_light one_light fixture_controller "label:Kitchen" (snd first) in
  exists r1 r2,
    first = (Ok r1, snd first) /\
    second = (Ok r2, snd second) /\
    r1.(old_power) = JStr (power_str On) /\
    r2.(old_power) = JStr r1.(new_power) /\
    r2.(new_power) = power_str On /\
    writes (log (snd second)) =
      [Sent (power_write fixture_controller "label:Kitchen" "on");
       Sent (power_write fixture_controller "label:Kitchen" "off")].
Proof.
  cbv zeta. do 2 eexists.
  split; [reflexivity |]. split; [reflexivity |].
  split; [reflexivity |]. split; [reflexivity |].
  apply (toggle_light_twice one_light fixture_controller "label:Kitchen"
           (mkWorld "on" []) _ _ _ _ On eq_refl eq_refl eq_refl eq_refl).
Defined.

(** In front of the service with one light, two toggles leave the light
    in the state it was in. *)
Lemma one_light_toggled_twice (p : PowerState) :
  let w0 := mkWorld (power_str p) [] in
  let w1 := snd (toggle_light one_light fixture_controller "label:Kitchen" w0) in
  let w2 := snd (toggle_light one_light fixture_controller "label:Kitchen" w1) in
  env w1 = power_str (negate p) /\ env w2 = power_str p.
Proof. destruct p; split; reflexivity. Qed.

(** A bulk reply with one "ok" and one "failed" entry is a success; a
    reply with a "failed" entry alone raises. *)
Lemma set_light_state_bulk_results_witness :
  let mixed := playing [results_reply [JObj (entry "ok"); JObj (entry "failed")]] in
  let failed := playing [results_reply [JObj (entry "failed")]] in
  set_light_state scripted fixture_controller "group:Home" (Some "off") None None mixed =
    (Ok (JObj [("results", JArr [JObj (entry "ok"); JObj (entry "failed")])]),
     snd (set_light_state scripted fixture_controller "group:Home" (Some "off") None None mixed)) /\
  set_light_state scripted fixture_controller "group:Home" (Some "off") None None failed =
    (Raise (raise_ LIFXAPIError "No lights were successfully updated"),
     snd (set_light_state scripted fixture_controller "group:Home" (Some "off") None None failed)).
Proof.
  cbv zeta. split.
  - apply (set_light_state_bulk_results scripted fixture_controller "group:Home"
             (Some "off") None None
             (playing [results_reply [JObj (entry "ok"); JObj (entry "failed")]]) _
             [("results", JArr [JObj (entry "ok"); JObj (entry "failed")])]
             [entry "ok"; entry "failed"]);
      [discriminate | reflexivity | reflexivity | reflexivity].
  - apply (set_light_state_bulk_results scripted fixture_controller "group:Home"
             (Some "off") None None
             (playing [results_reply [JObj (entry "failed")]]) _
             [("results", JArr [JObj (entry "failed")])]
             [entry "failed"]);
      [discriminate | reflexivity | reflexivity | reflexivity].
Defined.

(** A token of 63 characters is refused, the token of the fixtures, of
    64 characters, is taken. *)
Lemma init_token_length_witness :
  lifx_api.__init__ "" (Some "0123456789abcdef0123456789abcdef0123456789abcdef0123456789abcde") 400 =
    Raise (raise_ LIFXAPIError "Invalid LIFX API token format") /\
  lifx_api.__init__ "" (Some fixture_token) 400 = Ok fixture_controller.
Proof.
  split.
  - apply (init_token_length ""
             (Some "0123456789abcdef0123456789abcdef0123456789abcdef0123456789abcde") 400).
    cbn. discriminate.
  - apply (init_token_length "" (Some fixture_token) 400). reflexivity.
Defined.

End Examples.

Section DebounceExamples.

Import main.

(** A press accepted at 1000, a bounce at 1049 and a press at 1050. *)
Lemma button_pressed_debounce_witness :
  let self := mkLightController true false false 1000 true [] in
  accepted (fst (button_pressed 1049 self)) = false /\
  snd (button_pressed 1049 self) = self /\
  accepted (fst (button_pressed 1050 self)) = true /\
  (snd (button_pressed 1050 self)).(last_button_time) = 1050.
Proof.
  cbv zeta.
  pose proof (button_pressed_debounce 1049
                (mkLightController true false false 1000 true [])) as Hbounce.
  pose proof (button_pressed_debounce 1050
                (mkLightController true false false 1000 true [])) as Hpress.
  cbv zeta in Hbounce, Hpress.
  destruct Hbounce as (Hlt & _ & _ & Hsame).
  destruct Hpress as (_ & Hge & Hlast & _).
  assert (H1 : accepted (fst (button_pressed 1049
                 (mkLightController true false false 1000 true []))) = false)
    by (apply Hlt; reflexivity).
  assert (H2 : accepted (fst (button_pressed 1050
                 (mkLightController true false false 1000 true []))) = true)
    by (apply Hge; discriminate).
  split; [exact H1 |]. split; [exact (Hsame H1) |]. split; [exact H2 |].
  rewrite Hlast, H2. reflexivity.
Defined.

End DebounceExamples.

(** * More on the client *)

Section ClientRequests.

Import lifx_api.

Context {Env : Type} (http : Env -> Request -> HttpOutcome * Env).

(** [_make_request] with a method it supports, by what the library does
    with the request. *)
Lemma make_request_supported (self : LIFXController) (method endpoint : string)
    (data : option json) (w : World Env) :
  method = "GET" \/ method = "PUT" ->
  let rq := request_of self method endpoint data in
  let h := List.length (log w) in
  _make_request http self method endpoint data w =
    match http (env w) rq with
    | (Raises e, env') =>
        (Raise (raise_ UnboundLocalError
                  "cannot access local variable 'response' where it is not associated with a value"),
         mkWorld env' (Sent rq :: log w))
    | (Returns r, env') =>
        let w' := mkWorld env' (Closed h :: Opened h :: Sent rq :: log w) in
        if (status_code r =? 200) || (status_code r =? 207) then
          match json_ r with
          | Ok result => (Ok result, w')
          | Raise e =>
              if is_LIFXAPIError e then (Raise e, w')
              else (Raise (raise_ LIFXAPIError ("Request failed: " ++ exc_str e)), w')
          end
        else
          (Raise (raise_ LIFXAPIError
                    ("HTTP " ++ str_of_Z (status_code r) ++ ": " ++ text r)), w')
    end.
Proof.
  intros [-> | ->]; cbv zeta;
    unfold _make_request, _make_request_try, requests_get, requests_put,
      requests_send, request_of; cbn;
    destruct (http (env w) _) as [[e | r] env']; cbn; try reflexivity;
    destruct ((status_code r =? 200) || (status_code r =? 207)); cbn;
    try reflexivity;
    destruct (json_ r) as [result | e]; cbn; try reflexivity;
    destruct (is_LIFXAPIError e); reflexivity.
Qed.

(** [_make_request] returns a value exactly when the method is GET or
    PUT, the library hands back a reply with status 200 or 207 and the
    body of the reply parses; the value is the parsed body, and the
    response has been opened and closed after the one request. *)
Theorem make_request_returns_iff (self : LIFXController) (method endpoint : string)
    (data : option json) (w w' : World Env) (result : json) :
  _make_request http self method endpoint data w = (Ok result, w') <->
  (method = "GET" \/ method = "PUT") /\
  exists r env',
    http (env w) (request_of self method endpoint data) = (Returns r, env') /\
    (status_code r = 200 \/ status_code r = 207) /\
    json_ r = Ok result /\
    w' = mkWorld env'
           (Closed (List.length (log w)) :: Opened (List.length (log w)) ::
            Sent (request_of self method endpoint data) :: log w).
Proof.
  split.
  - intros Hrun.
    assert (Hm : method = "GET" \/ method = "PUT").
    { destruct (String.eqb method "GET") eqn:Hg; [left; now apply String.eqb_eq |].
      destruct (String.eqb method "PUT") eqn:Hp; [right; now apply String.eqb_eq |].
      unfold _make_request, _make_request_try in Hrun.
      rewrite Hg, Hp in Hrun. discriminate. }
    split; [exact Hm |].
    rewrite (make_request_supported self method endpoint data w Hm) in Hrun.
    cbv zeta in Hrun.
    destruct (http (env w) _) as [[e | r] env']; [discriminate |].
    destruct ((status_code r =? 200) || (status_code r =? 207)) eqn:Hs;
      [| discriminate].
    destruct (json_ r) as [v | e] eqn:Hj;
      [| destruct (is_LIFXAPIError e); discriminate].
    inversion Hrun; subst.
    exists r, env'. repeat split; auto.
    apply orb_true_iff in Hs. destruct Hs as [H | H]; apply Z.eqb_eq in H; auto.
  - intros (Hm & r & env' & Hhttp & Hs & Hj & ->).
    rewrite (make_request_supported self method endpoint data w Hm).
    cbv zeta. rewrite Hhttp, Hj.
    assert (Hs' : (status_code r =? 200) || (status_code r =? 207) = true).
    { apply orb_true_iff. destruct Hs as [H | H]; rewrite H; auto. }
    now rewrite Hs'.
Qed.

(** A method other than GET and PUT: nothing is sent and the world is
    untouched, and what leaves [_make_request] is not the [LIFXAPIError]
    "Unsupported HTTP method" the [try] block raises but the
    [UnboundLocalError] of the handler, which reads [response]. *)
Theorem make_request_unsupported_method (self : LIFXController)
    (method endpoint : string) (data : option json) (w : World Env) :
  method <> "GET" -> method <> "PUT" ->
  exists e,
    _make_request http self method endpoint data w = (Raise e, w) /\
    exc_class e = UnboundLocalError.
Proof.
  intros Hg Hp.
  apply String.eqb_neq in Hg. apply String.eqb_neq in Hp.
  unfold _make_request, _make_request_try. rewrite Hg, Hp.
  eexists. split; reflexivity.
Qed.

(** A reply with a status other than 200 and 207 becomes the
    [LIFXAPIError] "HTTP <status>: <text>", whatever the body is, and
    the response is closed. *)
Theorem make_request_bad_status (self : LIFXController) (method endpoint : string)
    (data : option json) (w : World Env) (r : Reply) (env' : Env) :
  method = "GET" \/ method = "PUT" ->
  http (env w) (request_of self method endpoint data) = (Returns r, env') ->
  status_code r <> 200 -> status_code r <> 207 ->
  _make_request http self method endpoint data w =
    (Raise (raise_ LIFXAPIError ("HTTP " ++ str_of_Z (status_code r) ++ ": " ++ text r)),
     mkWorld env'
       (Closed (List.length (log w)) :: Opened (List.length (log w)) ::
        Sent (request_of self method endpoint data) :: log w)).
Proof.
  intros Hm Hhttp H200 H207.
  rewrite (make_request_supported self method endpoint data w Hm).
  cbv zeta. rewrite Hhttp.
  apply Z.eqb_neq in H200. apply Z.eqb_neq in H207.
  now rewrite H200, H207.
Qed.

(** A body that does not parse: what [response.json()] raises becomes
    the [LIFXAPIError] "Request failed: <message>", and the response is
    closed. *)
Theorem make_request_bad_body (self : LIFXController) (method endpoint : string)
    (data : option json) (w : World Env) (r : Reply) (env' : Env) (e : Exc) :
  method = "GET" \/ method = "PUT" ->
  http (env w) (request_of self method endpoint data) = (Returns r, env') ->
  status_code r = 200 \/ status_code r = 207 ->
  json_ r = Raise e ->
  is_LIFXAPIError e = false ->
  _make_request http self method endpoint data w =
    (Raise (raise_ LIFXAPIError ("Request failed: " ++ exc_str e)),
     mkWorld env'
       (Closed (List.length (log w)) :: Opened (List.length (log w)) ::
        Sent (request_of self method endpoint data) :: log w)).
Proof.
  intros Hm Hhttp Hs Hj He.
  rewrite (make_request_supported self method endpoint data w Hm).
  cbv zeta. rewrite Hhttp, Hj, He.
  assert (Hs' : (status_code r =? 200) || (status_code r =? 207) = true).
  { apply orb_true_iff. destruct Hs as [H | H]; rewrite H; auto. }
  now rewrite Hs'.
Qed.

End ClientRequests.

(** * More on the state operations and the toggle *)

Section ClientOperations.

Import lifx_api.

Context {Env : Type} (http : Env -> Request -> HttpOutcome * Env).

(** [get_light_state], by what its request gave. *)
Lemma get_light_state_cases (self : LIFXController) (light_selector : string)
    (w : World Env) :
  get_light_state http self light_selector w =
    match _make_request http self "GET" ("lights/" ++ light_selector) None w with
    | (Ok lights, w1) =>
        if truthy lights then (Ok lights, w1)
        else (Raise (raise_ LIFXAPIError
                       ("No lights found for selector: " ++ light_selector)), w1)
    | (Raise e, w1) =>
        if is_LIFXAPIError e then (Raise e, w1)
        else (Raise (raise_ LIFXAPIError ("Failed to get light state: " ++ exc_str e)), w1)
    end.
Proof.
  unfold get_light_state, except_LIFXAPIError, bind, ret, raise.
  destruct (_make_request http self "GET" _ None w) as [[lights | e] w1];
    [destruct (truthy lights) |]; reflexivity.
Qed.

(** [set_light_state] with something to set, by what its request gave. *)
Lemma set_light_state_cases (self : LIFXController) (light_selector : string)
    (power : option string) (brightness : option Q) (color : option string)
    (w : World Env) :
  state_payload power brightness color <> [] ->
  set_light_state http self light_selector power brightness color w =
    match _make_request http self "PUT" ("lights/" ++ light_selector ++ "/state")
            (Some (JObj (state_payload power brightness color))) w with
    | (Ok result, w1) =>
        match check_results result with
        | Ok checked => (Ok checked, w1)
        | Raise e =>
            if is_LIFXAPIError e then (Raise e, w1)
            else (Raise (raise_ LIFXAPIError ("Failed to set light state: " ++ exc_str e)), w1)
        end
    | (Raise e, w1) =>
        if is_LIFXAPIError e then (Raise e, w1)
        else (Raise (raise_ LIFXAPIError ("Failed to set light state: " ++ exc_str e)), w1)
    end.
Proof.
  intros Hpayload. unfold set_light_state.
  destruct (state_payload power brightness color) as [| item items]; [contradiction |].
  cbn [truthy negb]. unfold except_LIFXAPIError, bind, lift.
  destruct (_make_request http self "PUT" _ _ w) as [[result | e] w1];
    [destruct (check_results result) |]; reflexivity.
Qed.

(** The request of a write with a payload that is not empty is the
    write of that payload. *)
Lemma request_of_write (self : LIFXController) (light_selector : string)
    (payload : list (string * json)) :
  payload <> [] ->
  request_of self "PUT" ("lights/" ++ light_selector ++ "/state") (Some (JObj payload)) =
    state_write self light_selector payload.
Proof.
  intros Hpayload. destruct payload; [contradiction | reflexivity].
Qed.

(** The requests in what one [_make_request] adds to the log. *)
Lemma request_trace_sent (self : LIFXController) (method endpoint : string)
    (data : option json) (old delta : list Event) :
  method = "GET" \/ method = "PUT" ->
  request_trace self method endpoint data old delta ->
  sent delta = [request_of self method endpoint data].
Proof.
  intros Hm [Hg Hp | |]; try reflexivity.
  destruct Hm as [-> | ->]; discriminate.
Qed.

(** A selector that matches nothing: when the reply to the read has
    status 200 or 207 and its body is empty (an empty list, or any
    value Python takes for false), [get_light_state] raises
    "No lights found for selector: <selector>". *)
Theorem get_light_state_no_lights (self : LIFXController) (light_selector : string)
    (w : World Env) (r : Reply) (env' : Env) (lights : json) :
  http (env w) (state_read self light_selector) = (Returns r, env') ->
  status_code r = 200 \/ status_code r = 207 ->
  json_ r = Ok lights ->
  truthy lights = false ->
  get_light_state http self light_selector w =
    (Raise (raise_ LIFXAPIError ("No lights found for selector: " ++ light_selector)),
     mkWorld env'
       (Closed (List.length (log w)) :: Opened (List.length (log w)) ::
        Sent (state_read self light_selector) :: log w)).
Proof.
  intros Hhttp Hs Hj Hfalse.
  rewrite get_light_state_cases.
  rewrite (make_request_supported http self "GET" _ None w (or_introl eq_refl)).
  cbv zeta. change (request_of self "GET" ("lights/" ++ light_selector) None)
    with (state_read self light_selector).
  rewrite Hhttp, Hj.
  assert (Hs' : (status_code r =? 200) || (status_code r =? 207) = true).
  { apply orb_true_iff. destruct Hs as [H | H]; rewrite H; auto. }
  now rewrite Hs', Hfalse.
Qed.

(** [get_light_state] returns exactly when the reply to its read has
    status 200 or 207 and a body that parses to a value Python takes
    for true; it returns that value, never an empty one. *)
Theorem get_light_state_returns_iff (self : LIFXController) (light_selector : string)
    (w w' : World Env) (lights : json) :
  get_light_state http self light_selector w = (Ok lights, w') <->
  exists r env',
    http (env w) (state_read self light_selector) = (Returns r, env') /\
    (status_code r = 200 \/ status_code r = 207) /\
    json_ r = Ok lights /\
    truthy lights = true /\
    w' = mkWorld env'
           (Closed (List.length (log w)) :: Opened (List.length (log w)) ::
            Sent (state_read self light_selector) :: log w).
Proof.
  rewrite get_light_state_cases.
  rewrite (make_request_supported http self "GET" _ None w (or_introl eq_refl)).
  cbv zeta. change (request_of self "GET" ("lights/" ++ light_selector) None)
    with (state_read self light_selector).
  destruct (http (env w) (state_read self light_selector)) as [[e | r] env1].
  - cbn. split; [discriminate | intros (r & env' & H & _); discriminate].
  - destruct ((status_code r =? 200) || (status_code r =? 207)) eqn:Hs.
    + apply orb_true_iff in Hs.
      assert (Hs' : status_code r = 200 \/ status_code r = 207).
      { destruct Hs as [H | H]; apply Z.eqb_eq in H; auto. }
      destruct (json_ r) as [v | e] eqn:Hj.
      * destruct (truthy v) eqn:Ht.
        -- split.
           ++ intros H. inversion H; subst. exists r, env1. auto.
           ++ intros (r' & env' & H & _ & Hj' & _ & ->).
              inversion H; subst. rewrite Hj in Hj'. inversion Hj'; subst. reflexivity.
        -- split; [discriminate |].
           intros (r' & env' & H & _ & Hj' & Ht' & _).
           inversion H; subst. rewrite Hj in Hj'. inversion Hj'; subst. congruence.
      * split.
        -- destruct (is_LIFXAPIError e) eqn:He; cbn; rewrite ?He; discriminate.
        -- intros (r' & env' & H & _ & Hj' & _).
           inversion H; subst. congruence.
    + split; [discriminate |].
      intros (r' & env' & H & Hs' & _). inversion H; subst.
      apply orb_false_iff in Hs. destruct Hs as [H1 H2].
      apply Z.eqb_neq in H1. apply Z.eqb_neq in H2. tauto.
Qed.

(** When the library itself raises on the read (a timeout, a refused
    connection), the caller of [get_light_state] gets a [LIFXAPIError]
    whose message does not depend on what the library raised: it is the
    message of the handler's [UnboundLocalError]. *)
Theorem get_light_state_library_raises (self : LIFXController) (light_selector : string)
    (w : World Env) :
  exists message,
    forall e env',
      http (env w) (state_read self light_selector) = (Raises e, env') ->
      get_light_state http self light_selector w =
        (Raise (raise_ LIFXAPIError ("Failed to get light state: " ++ message)),
         mkWorld env' (Sent (state_read self light_selector) :: log w)).
Proof.
  eexists. intros e env' Hhttp.
  rewrite get_light_state_cases.
  rewrite (make_request_supported http self "GET" _ None w (or_introl eq_refl)).
  cbv zeta. change (request_of self "GET" ("lights/" ++ light_selector) None)
    with (state_read self light_selector).
  rewrite Hhttp. cbn. reflexivity.
Qed.

(** Every exception that leaves [get_light_state], [set_light_state] or
    [toggle_light] is a [LIFXAPIError]. *)
Theorem methods_raise_LIFXAPIError (self : LIFXController) (light_selector : string)
    (power : option string) (brightness : option Q) (color : option string)
    (w : World Env) :
  raises_only LIFXAPIError (fst (get_light_state http self light_selector w)) /\
  raises_only LIFXAPIError
    (fst (set_light_state http self light_selector power brightness color w)) /\
  raises_only LIFXAPIError (fst (toggle_light http self light_selector w)).
Proof.
  assert (Hclass : forall e, is_LIFXAPIError e = true -> exc_class e = LIFXAPIError).
  { intros [c m]. unfold is_LIFXAPIError. cbn. destruct c; auto; discriminate. }
  assert (Hwrap : forall (A : Type) prefix (m : M Env A) w0,
             raises_only LIFXAPIError (fst (except_LIFXAPIError prefix m w0))).
  { intros A prefix m w0.
    destruct (except_LIFXAPIError prefix m w0) as [[a | e] w1] eqn:Hrun; cbn; auto.
    apply Hclass. eapply except_LIFXAPIError_raises. exact Hrun. }
  split; [apply Hwrap |]. split; [| apply Hwrap].
  unfold set_light_state.
  destruct (negb (truthy (JObj (state_payload power brightness color))));
    [reflexivity | apply Hwrap].
Qed.

(** With at least one of [power], [brightness] and [color] given,
    [set_light_state] sends exactly one request, whatever comes back:
    the PUT on the state of the selected lights whose body holds the
    given fields and no other, in the order power, brightness, color. *)
Theorem set_light_state_request (self : LIFXController) (light_selector : string)
    (power : option string) (brightness : option Q) (color : option string)
    (w : World Env) :
  state_payload power brightness color <> [] ->
  exists delta,
    log (snd (set_light_state http self light_selector power brightness color w)) =
      (delta ++ log w)%list /\
    sent delta =
      [state_write self light_selector (state_payload power brightness color)].
Proof.
  intros Hpayload.
  rewrite (set_light_state_cases self light_selector power brightness color w Hpayload).
  destruct (make_request_trace http self "PUT" ("lights/" ++ light_selector ++ "/state")
              (Some (JObj (state_payload power brightness color))) w)
    as (delta & Hlog & Htrace).
  exists delta. split.
  - destruct (_make_request http self "PUT" _ _ w) as [[result | e] w1];
      [destruct (check_results result) as [checked | e]|];
      try destruct (is_LIFXAPIError e); exact Hlog.
  - rewrite <- (request_of_write self light_selector _ Hpayload).
    eapply request_trace_sent; [right; reflexivity | exact Htrace].
Qed.

(** A reply object without a ["results"] item is taken for a success,
    whatever else it holds: [set_light_state] returns it unchecked. *)
Theorem set_light_state_without_results (self : LIFXController) (light_selector : string)
    (power : option string) (brightness : option Q) (color : option string)
    (w w1 : World Env) (fields : list (string * json)) :
  state_payload power brightness color <> [] ->
  _make_request http self "PUT" ("lights/" ++ light_selector ++ "/state")
    (Some (JObj (state_payload power brightness color))) w = (Ok (JObj fields), w1) ->
  assoc "results" fields = None ->
  set_light_state http self light_selector power brightness color w =
    (Ok (JObj fields), w1).
Proof.
  intros Hpayload Hput Hnone.
  rewrite (set_light_state_cases self light_selector power brightness color w Hpayload).
  rewrite Hput. unfold check_results. cbn. now rewrite Hnone.
Qed.

(** An entry that is not a [dict] makes the count raise. *)
Lemma success_count_not_dict (items : list json) :
  existsb (fun x => negb (is_dict x)) items = true ->
  success_count items = Raise (raise_ AttributeError "object has no attribute 'get'").
Proof.
  induction items as [| x rest IH]; [discriminate |].
  cbn [existsb success_count]. intros H.
  destruct x; cbn; try reflexivity.
  cbn in H. rewrite (IH H).
  destruct (assoc "status" fields); reflexivity.
Qed.

(** An entry of ["results"] that is not an object spoils the reply:
    [set_light_state] raises "Failed to set light state: ...", even when
    other entries report "ok". *)
Theorem set_light_state_malformed_entry (self : LIFXController) (light_selector : string)
    (power : option string) (brightness : option Q) (color : option string)
    (w w1 : World Env) (fields : list (string * json)) (items : list json) :
  state_payload power brightness color <> [] ->
  _make_request http self "PUT" ("lights/" ++ light_selector ++ "/state")
    (Some (JObj (state_payload power brightness color))) w = (Ok (JObj fields), w1) ->
  assoc "results" fields = Some (JArr items) ->
  existsb (fun x => negb (is_dict x)) items = true ->
  exists message,
    set_light_state http self light_selector power brightness color w =
      (Raise (raise_ LIFXAPIError ("Failed to set light state: " ++ message)), w1).
Proof.
  intros Hpayload Hput Hresults Hbad.
  rewrite (set_light_state_cases self light_selector power brightness color w Hpayload).
  rewrite Hput. unfold check_results. cbn. rewrite Hresults. cbn.
  rewrite (success_count_not_dict items Hbad). cbn.
  eexists. reflexivity.
Qed.

End ClientOperations.

Section ToggleTraces.

Import lifx_api.

Context {Env : Type} (http : Env -> Request -> HttpOutcome * Env).

(** What a read adds to the log. *)
Lemma get_light_state_trace (self : LIFXController) (light_selector : string)
    (w : World Env) :
  exists delta,
    log (snd (get_light_state http self light_selector w)) = (delta ++ log w)%list /\
    request_trace self "GET" ("lights/" ++ light_selector) None (log w) delta.
Proof.
  rewrite get_light_state_cases.
  destruct (make_request_trace http self "GET" ("lights/" ++ light_selector) None w)
    as (delta & Hlog & Htrace).
  exists delta. split; [| exact Htrace].
  destruct (_make_request http self "GET" _ None w) as [[lights | e] w1];
    [destruct (truthy lights) | destruct (is_LIFXAPIError e)]; exact Hlog.
Qed.

(** What a write of a power value adds to the log. *)
Lemma set_light_state_power_trace (self : LIFXController) (light_selector power : string)
    (w : World Env) :
  exists delta,
    log (snd (set_light_state http self light_selector (Some power) None None w)) =
      (delta ++ log w)%list /\
    request_trace self "PUT" ("lights/" ++ light_selector ++ "/state")
      (Some (JObj [("power", JStr power)])) (log w) delta.
Proof.
  rewrite (set_light_state_cases http self light_selector (Some power) None None w)
    by discriminate.
  cbn [state_payload app].
  destruct (make_request_trace http self "PUT" ("lights/" ++ light_selector ++ "/state")
              (Some (JObj [("power", JStr power)])) w) as (delta & Hlog & Htrace).
  exists delta. split; [| exact Htrace].
  destruct (_make_request http self "PUT" _ _ w) as [[result | e] w1];
    [destruct (check_results result) as [checked | e] |];
    try destruct (is_LIFXAPIError e); exact Hlog.
Qed.

(** What a toggle adds to the log: the read, and after it nothing or
    the write of "on" or of "off". *)
Lemma toggle_light_trace (self : LIFXController) (light_selector : string)
    (w : World Env) :
  exists d1 d2,
    log (snd (toggle_light http self light_selector w)) = (d2 ++ d1 ++ log w)%list /\
    request_trace self "GET" ("lights/" ++ light_selector) None (log w) d1 /\
    (d2 = [] \/
     exists power, (power = "on" \/ power = "off") /\
       request_trace self "PUT" ("lights/" ++ light_selector ++ "/state")
         (Some (JObj [("power", JStr power)])) (d1 ++ log w)%list d2).
Proof.
  unfold toggle_light. rewrite except_LIFXAPIError_world. unfold bind, lift, ret.
  destruct (get_light_state_trace self light_selector w) as (d1 & Hlog1 & Htrace1).
  destruct (get_light_state http self light_selector w) as [[lights | e] w1];
    cbn [snd] in Hlog1.
  2:{ exists d1, []. cbn. auto. }
  destruct (getitem_0 lights) as [first | e].
  2:{ exists d1, []. cbn. auto. }
  destruct (getitem first "power") as [current_power | e].
  2:{ exists d1, []. cbn. auto. }
  set (written := if eq_str current_power "on" then "off" else "on").
  destruct (set_light_state_power_trace self light_selector written w1)
    as (d2 & Hlog2 & Htrace2).
  exists d1, d2. split; [| split; [exact Htrace1 |]].
  - destruct (set_light_state http self light_selector (Some written) None None w1)
      as [[result | e] w2]; cbn [snd] in *; now rewrite Hlog2, Hlog1.
  - right. exists written. split.
    + unfold written. destruct (eq_str current_power "on"); auto.
    + now rewrite <- Hlog1.
Qed.

(** The handles one request leaves open are none, whatever was closed
    later, and the requests before it are judged as if it had not been
    there, give or take one more closed handle. *)
Lemma request_trace_unreleased_app (self : LIFXController) (method endpoint : string)
    (data : option json) (old delta : list Event) :
  request_trace self method endpoint data old delta ->
  forall later rest,
    exists later',
      unreleased_from later (delta ++ rest) = unreleased_from later' rest.
Proof.
  intros [Hg Hp | |] later rest; cbn.
  - now exists later.
  - now exists later.
  - rewrite Nat.eqb_refl. cbn. now exists (List.length old :: later).
Qed.

(** [toggle_light] never sends more than two requests, and never a
    write before the read: on every path the requests it sends are the
    read alone, or the read followed by one write of "on" or of "off". *)
Theorem toggle_light_requests (self : LIFXController) (light_selector : string)
    (w : World Env) :
  exists delta,
    log (snd (toggle_light http self light_selector w)) = (delta ++ log w)%list /\
    (sent delta = [state_read self light_selector] \/
     sent delta = [power_write self light_selector "on"; state_read self light_selector] \/
     sent delta = [power_write self light_selector "off"; state_read self light_selector]).
Proof.
  destruct (toggle_light_trace self light_selector w)
    as (d1 & d2 & Hlog & Htrace1 & Hwrite).
  exists (d2 ++ d1)%list. split; [now rewrite <- app_assoc |].
  unfold sent. rewrite flat_map_app. fold (sent d1). fold (sent d2).
  rewrite (request_trace_sent self "GET" _ None _ d1 (or_introl eq_refl) Htrace1).
  destruct Hwrite as [-> | (power & Hpower & Htrace2)]; [left; reflexivity |].
  rewrite (request_trace_sent self "PUT" _ _ _ d2 (or_intror eq_refl) Htrace2).
  destruct Hpower as [-> | ->]; [right; left | right; right]; reflexivity.
Qed.

(** [toggle_light] leaves no response open, whether it returns or
    raises: every response it obtained, from the read and from the
    write, has been closed when it ends. *)
Theorem toggle_light_releases (self : LIFXController) (light_selector : string)
    (w : World Env) :
  exists delta,
    log (snd (toggle_light http self light_selector w)) = (delta ++ log w)%list /\
    unreleased delta = [].
Proof.
  destruct (toggle_light_trace self light_selector w)
    as (d1 & d2 & Hlog & Htrace1 & Hwrite).
  exists (d2 ++ d1)%list. split; [now rewrite <- app_assoc |].
  assert (H1 : forall later, unreleased_from later d1 = []).
  { intros later.
    destruct (request_trace_unreleased_app _ _ _ _ _ _ Htrace1 later [])
      as (later' & H).
    rewrite app_nil_r in H. exact H. }
  destruct Hwrite as [-> | (power & _ & Htrace2)]; [apply H1 |].
  unfold unreleased.
  destruct (request_trace_unreleased_app _ _ _ _ _ _ Htrace2 [] d1) as (later' & H).
  rewrite H. apply H1.
Qed.

(** Reading an item raises an exception of the interpreter. *)
Lemma getitem_raises (v : json) (k : string) (e : Exc) :
  getitem_0 v = Raise e \/ getitem v k = Raise e -> is_LIFXAPIError e = false.
Proof.
  intros [H | H]; destruct v as [| b | q | s | items | fields]; cbn in H;
    try (inversion H; reflexivity).
  - destruct s; inversion H; reflexivity.
  - destruct items; inversion H; reflexivity.
  - destruct (assoc k fields); inversion H; reflexivity.
Qed.

(** A reply to the read that has no first entry with a ["power"] item
    (a first entry without the key, a first entry that is not an
    object, a reply that is not a list): [toggle_light] raises
    "Toggle failed: <what the lookup raised>" in the world the read
    left, so no write is sent. *)
Theorem toggle_light_malformed_reply (self : LIFXController) (light_selector : string)
    (w w1 : World Env) (lights : json) (e : Exc) :
  get_light_state http self light_selector w = (Ok lights, w1) ->
  (first <-- getitem_0 lights ;; getitem first "power") = Raise e ->
  toggle_light http self light_selector w =
    (Raise (raise_ LIFXAPIError ("Toggle failed: " ++ exc_str e)), w1).
Proof.
  intros Hget Hlookup.
  unfold toggle_light, except_LIFXAPIError, bind, lift. rewrite Hget.
  unfold bind_result in Hlookup.
  destruct (getitem_0 lights) as [first | e0] eqn:Hfirst.
  - rewrite Hlookup.
    now rewrite (getitem_raises first "power" e (or_intror Hlookup)).
  - inversion Hlookup; subst.
    now rewrite (getitem_raises lights "power" e (or_introl Hfirst)).
Qed.

End ToggleTraces.

(** * Discovery *)

Section DiscoveryFacts.

Import lifx_api.

Context {Env : Type} (http : Env -> Request -> HttpOutcome * Env).
Variable percent : json -> completion Z.
Variable str_other : json -> string.

Set Warnings "-notation-for-abbreviation".

Notation light_info := (light_info percent str_other).
Notation light_infos := (light_infos percent str_other).
Notation discover_lights := (discover_lights http percent str_other).
Notation validate_connection := (validate_connection http percent str_other).

(** The loop gives one dictionary per light, in order. *)
Lemma light_infos_Forall2 (items infos : list json) :
  light_infos items = Ok infos <->
  Forall2 (fun light info => light_info light = Ok info) items infos.
Proof.
  revert infos. induction items as [| light rest IH]; intros infos; cbn.
  - split.
    + intros H. inversion H. constructor.
    + intros H. inversion H. reflexivity.
  - split.
    + intros H. unfold bind_result in H.
      destruct (lifx_api.light_info percent str_other light) as [info | e] eqn:Hinfo;
        [| discriminate].
      destruct (lifx_api.light_infos percent str_other rest) as [infos' | e] eqn:Hrest;
        [| discriminate].
      inversion H; subst. constructor; [exact Hinfo | now apply IH].
    + intros H. inversion H as [| ? info ? infos' Hinfo Hrest]; subst.
      apply IH in Hrest. unfold bind_result. now rewrite Hinfo, Hrest.
Qed.

(** What iterating a value Python takes for true visits is not empty. *)
Lemma iterate_truthy (v : json) (items : list json) :
  truthy v = true -> iterate v = Ok items -> items <> [].
Proof.
  destruct v as [| b | q | s | l | fields]; cbn; intros Ht Hi; try discriminate.
  - destruct s; [discriminate |]. inversion Hi. discriminate.
  - destruct l; [discriminate |]. inversion Hi. discriminate.
  - destruct fields; [discriminate |]. inversion Hi. discriminate.
Qed.

(** [discover_lights], by what the read gave. *)
Lemma discover_lights_cases (self : LIFXController) (w : World Env) :
  discover_lights self w =
    match get_light_state http self "all" w with
    | (Ok lights, w1) =>
        match (items <-- iterate lights ;; light_infos items) with
        | Ok infos => (Ok infos, w1)
        | Raise e =>
            if is_LIFXAPIError e then (Raise e, w1)
            else (Raise (raise_ LIFXAPIError ("Light discovery failed: " ++ exc_str e)), w1)
        end
    | (Raise e, w1) => (Raise e, w1)
    end.
Proof.
  unfold lifx_api.discover_lights, except_LIFXAPIError, bind, lift, ret.
  destruct (get_light_state http self "all" w) as [[lights | e] w1] eqn:Hget.
  - unfold bind_result. destruct (iterate lights) as [items | e]; [| reflexivity].
    destruct (lifx_api.light_infos percent str_other items); reflexivity.
  - now rewrite (except_LIFXAPIError_raises _ _ _ _ _ Hget).
Qed.

(** When [discover_lights] returns, the read of all lights returned and
    the list it gives has one dictionary per light of the reply, in the
    order of the reply, each built from its light. *)
Theorem discover_lights_returns (self : LIFXController) (w w' : World Env)
    (infos : list json) :
  discover_lights self w = (Ok infos, w') ->
  exists lights items,
    get_light_state http self "all" w = (Ok lights, w') /\
    iterate lights = Ok items /\
    Forall2 (fun light info => light_info light = Ok info) items infos /\
    List.length infos = List.length items.
Proof.
  rewrite discover_lights_cases.
  destruct (get_light_state http self "all" w) as [[lights | e] w1]; [| discriminate].
  unfold bind_result.
  destruct (iterate lights) as [items | e] eqn:Hiter.
  - destruct (lifx_api.light_infos percent str_other items) as [infos' | e] eqn:Hinfos.
    + intros H. inversion H; subst.
      apply light_infos_Forall2 in Hinfos.
      exists lights, items. repeat split; auto.
      symmetry. eapply Forall2_length. exact Hinfos.
    + destruct (is_LIFXAPIError e); discriminate.
  - destruct (is_LIFXAPIError e); discriminate.
Qed.

(** The dictionary of a light keeps the light's id, label and power, and
    its selector is "label:" followed by the label as it is, with no
    encoding of spaces or other characters. *)
Theorem light_info_fields (light info : json) :
  light_info light = Ok info ->
  getitem info "id" = getitem light "id" /\
  getitem info "label" = getitem light "label" /\
  getitem info "power" = getitem light "power" /\
  exists label,
    getitem light "label" = Ok label /\
    getitem info "selector" = Ok (JStr ("label:" ++ format_value str_other label)).
Proof.
  unfold lifx_api.light_info, bind_result.
  destruct (getitem light "id") as [id | e]; [| discriminate].
  destruct (getitem light "label") as [label | e]; [| discriminate].
  destruct (getitem light "power") as [power | e]; [| discriminate].
  destruct (getitem light "brightness") as [brightness | e]; [| discriminate].
  destruct (percent brightness) as [pct | e]; [| discriminate].
  destruct (dict_get_default light "location" (JObj [])) as [location | e];
    [| discriminate].
  destruct (dict_get_default location "name" (JStr "Unknown")) as [name | e];
    [| discriminate].
  intros H. inversion H; subst. cbn.
  repeat split. exists label. split; reflexivity.
Qed.

(** A light without a ["location"] item, or with a location that has no
    ["name"], is reported at the location "Unknown". *)
Theorem light_info_unknown_location (fields : list (string * json)) (info : json) :
  light_info (JObj fields) = Ok info ->
  assoc "location" fields = None \/
  (exists place, assoc "location" fields = Some (JObj place) /\ assoc "name" place = None) ->
  getitem info "location" = Ok (JStr "Unknown").
Proof.
  unfold lifx_api.light_info, bind_result.
  destruct (getitem (JObj fields) "id") as [id | e]; [| discriminate].
  destruct (getitem (JObj fields) "label") as [label | e]; [| discriminate].
  destruct (getitem (JObj fields) "power") as [power | e]; [| discriminate].
  destruct (getitem (JObj fields) "brightness") as [brightness | e]; [| discriminate].
  destruct (percent brightness) as [pct | e]; [| discriminate].
  intros H [Hnone | (place & Hsome & Hname)]; cbn in H.
  - rewrite Hnone in H. cbn in H. inversion H; subst. reflexivity.
  - rewrite Hsome in H. cbn in H. rewrite Hname in H. inversion H; subst. reflexivity.
Qed.

(** A light that lacks one of the items ["id"], ["label"], ["power"] and
    ["brightness"] makes the whole discovery fail, whatever the other
    lights are: when the first light of the reply has no ["id"],
    [discover_lights] raises "Light discovery failed: 'id'". *)
Theorem discover_lights_missing_id (self : LIFXController) (w w1 : World Env)
    (fields : list (string * json)) (rest : list json) :
  get_light_state http self "all" w = (Ok (JArr (JObj fields :: rest)), w1) ->
  assoc "id" fields = None ->
  discover_lights self w =
    (Raise (raise_ LIFXAPIError "Light discovery failed: 'id'"), w1).
Proof.
  intros Hget Hid. rewrite discover_lights_cases, Hget.
  cbn. unfold lifx_api.light_info. cbn. rewrite Hid. reflexivity.
Qed.

(** [validate_connection], by what the discovery gave. *)
Lemma validate_connection_cases (self : LIFXController) (w : World Env) :
  validate_connection self w =
    match discover_lights self w with
    | (Ok infos, w1) => (Ok (0 <? Z.of_nat (List.length infos)), w1)
    | (Raise e, w1) => (Raise e, w1)
    end.
Proof.
  unfold lifx_api.validate_connection, except_LIFXAPIError at 1, bind, ret.
  destruct (lifx_api.discover_lights http percent str_other self w)
    as [[infos | e] w1] eqn:Hrun; [reflexivity |].
  unfold lifx_api.discover_lights in Hrun.
  now rewrite (except_LIFXAPIError_raises _ _ _ _ _ Hrun).
Qed.

(** [validate_connection] never returns [False]: it returns [True] or
    it raises. *)
Theorem validate_connection_never_false (self : LIFXController) (w : World Env) :
  fst (validate_connection self w) <> Ok false.
Proof.
  rewrite validate_connection_cases.
  destruct (lifx_api.discover_lights http percent str_other self w)
    as [[infos | e] w1] eqn:Hrun; [| discriminate].
  cbn. intros H. inversion H as [Hlen]. clear H.
  rewrite discover_lights_cases in Hrun.
  pose proof (get_light_state_cases http self "all" w) as Hcases.
  destruct (get_light_state http self "all" w) as [[lights | e] w2]; [| discriminate].
  assert (Ht : truthy lights = true).
  { destruct (_make_request http self "GET" _ None w) as [[v | e] w3].
    - destruct (truthy v) eqn:Hv; inversion Hcases; subst; auto.
    - destruct (is_LIFXAPIError e); discriminate. }
  unfold bind_result in Hrun.
  destruct (iterate lights) as [items | e] eqn:Hiter.
  2:{ destruct (is_LIFXAPIError e); discriminate. }
  destruct (lifx_api.light_infos percent str_other items) as [infos' | e] eqn:Hinfos.
  2:{ destruct (is_LIFXAPIError e); discriminate. }
  inversion Hrun; subst.
  apply light_infos_Forall2 in Hinfos. apply Forall2_length in Hinfos.
  pose proof (iterate_truthy lights items Ht Hiter) as Hne.
  destruct items; [contradiction |].
  destruct infos; [discriminate |].
  cbn in Hlen. discriminate.
Qed.

(** [discover_lights] and [validate_connection] send one request and
    no other, the read of the selector "all"; they never write. *)
Theorem discovery_requests (self : LIFXController) (w : World Env) :
  (exists delta,
      log (snd (discover_lights self w)) = (delta ++ log w)%list /\
      sent delta = [state_read self "all"]) /\
  (exists delta,
      log (snd (validate_connection self w)) = (delta ++ log w)%list /\
      sent delta = [state_read self "all"]).
Proof.
  assert (Hd : exists delta,
             log (snd (discover_lights self w)) = (delta ++ log w)%list /\
             sent delta = [state_read self "all"]).
  { rewrite discover_lights_cases.
    destruct (get_light_state_trace http self "all" w) as (delta & Hlog & Htrace).
    exists delta. split.
    - destruct (get_light_state http self "all" w) as [[lights | e] w1]; [| exact Hlog].
      destruct (items <-- iterate lights;; light_infos items) as [infos | e];
        [| destruct (is_LIFXAPIError e)]; exact Hlog.
    - apply (request_trace_sent self "GET" _ None _ delta (or_introl eq_refl) Htrace). }
  split; [exact Hd |].
  rewrite validate_connection_cases.
  destruct Hd as (delta & Hlog & Hsent). exists delta. split; [| exact Hsent].
  destruct (lifx_api.discover_lights http percent str_other self w) as [[infos | e] w1];
    exact Hlog.
Qed.

(** Every exception that leaves [discover_lights] or
    [validate_connection] is a [LIFXAPIError]. *)
Theorem discovery_raises_LIFXAPIError (self : LIFXController) (w : World Env) :
  raises_only LIFXAPIError (fst (discover_lights self w)) /\
  raises_only LIFXAPIError (fst (validate_connection self w)).
Proof.
  assert (Hclass : forall e, is_LIFXAPIError e = true -> exc_class e = LIFXAPIError).
  { intros [c m]. unfold is_LIFXAPIError. cbn. destruct c; auto; discriminate. }
  split.
  - destruct (lifx_api.discover_lights http percent str_other self w)
      as [[a | e] w1] eqn:Hrun; cbn; auto.
    apply Hclass. eapply except_LIFXAPIError_raises. exact Hrun.
  - destruct (lifx_api.validate_connection http percent str_other self w)
      as [[a | e] w1] eqn:Hrun; cbn; auto.
    apply Hclass. eapply except_LIFXAPIError_raises. exact Hrun.
Qed.

End DiscoveryFacts.

Section FunctionFacts.

Import lifx_api.

Context {Env : Type} (http : Env -> Request -> HttpOutcome * Env).
Variable LIFX_TOKEN : string.
Variable percent : json -> completion Z.
Variable str_other : json -> string.

(** The functions of the module check the token of [secrets] before
    anything else: with a token that is not 64 characters long they
    raise "Invalid LIFX API token format" and send nothing; with a token
    of 64 characters they are the methods of a controller that holds
    that token and the timeout in seconds. *)
Theorem functions_check_token (light_selector : string) (timeout_ms : Z)
    (w : World Env) :
  (String.length LIFX_TOKEN <> 64%nat ->
     lifx_api_functions.toggle_light http LIFX_TOKEN light_selector timeout_ms w =
       (Raise (raise_ LIFXAPIError "Invalid LIFX API token format"), w) /\
     lifx_api_functions.get_all_lights http LIFX_TOKEN percent str_other timeout_ms w =
       (Raise (raise_ LIFXAPIError "Invalid LIFX API token format"), w)) /\
  (String.length LIFX_TOKEN = 64%nat ->
     let controller :=
       mkLIFXController LIFX_TOKEN (inject_Z timeout_ms / 1000)%Q
         "https://api.lifx.com/v1" in
     lifx_api_functions.toggle_light http LIFX_TOKEN light_selector timeout_ms w =
       lifx_api.toggle_light http controller light_selector w /\
     lifx_api_functions.get_all_lights http LIFX_TOKEN percent str_other timeout_ms w =
       discover_lights http percent str_other controller w).
Proof.
  unfold lifx_api_functions.toggle_light, lifx_api_functions.get_all_lights,
    lifx_api.__init__, effective_token.
  cbn [api_token truthy].
  split; intros Hlen.
  - apply Nat.eqb_neq in Hlen. rewrite Hlen, orb_true_r. split; reflexivity.
  - assert (Hne : String.eqb LIFX_TOKEN "" = false).
    { destruct LIFX_TOKEN; [discriminate | reflexivity]. }
    apply Nat.eqb_eq in Hlen. rewrite Hlen, Hne. cbn. split; reflexivity.
Qed.

End FunctionFacts.

(** * The board: requests, WiFi and the scheduled toggle *)

Section BoardFacts.

Import lifx_api.
Import main.
Import main_io.

Context {Env : Type}.
Variable http : Env -> Request -> HttpOutcome * Env.
Variable isconnected : Env -> bool * Env.
Variable connect : Env -> Env.
Variable active : bool -> Env -> Env.
Variable ticks_ms : Env -> Z * Env.
Variable sleep_ms : Z -> Env -> Env.
Variable LIFX_TOKEN : string.

Notation Board := (main_io.Board Env).
Notation make_api_request := (main_io.make_api_request http LIFX_TOKEN).
Notation toggle_light_try := (main_io.toggle_light_try http sleep_ms LIFX_TOKEN).
Notation connect_wifi := (main_io.connect_wifi isconnected connect active ticks_ms sleep_ms).
Notation toggle_light :=
  (main_io.toggle_light http isconnected connect active ticks_ms sleep_ms LIFX_TOKEN).
Notation run_steps :=
  (main_io.run_steps http isconnected connect active ticks_ms sleep_ms LIFX_TOKEN).
Notation step :=
  (main_io.step http isconnected connect active ticks_ms sleep_ms LIFX_TOKEN).

(** [make_api_request] with a method it knows, by what the library does
    with the request. *)
Lemma make_api_request_supported (method url : string) (data : option json)
    (w : World Env) :
  method = "GET" \/ method = "PUT" ->
  let rq := api_request LIFX_TOKEN method url data in
  let h := List.length (log w) in
  make_api_request method url data w =
    match http (env w) rq with
    | (Raises e, env') => (Failed (Builtin e), mkWorld env' (Sent rq :: log w))
    | (Returns r, env') =>
        if (status_code r =? 200) || (status_code r =? 207) then
          match json_ r with
          | Ok result =>
              (Done result, mkWorld env' (Closed h :: Opened h :: Sent rq :: log w))
          | Raise e =>
              (Failed (Builtin e), mkWorld env' (Opened h :: Sent rq :: log w))
          end
        else
          (Failed (Exception_ ("API error: " ++ str_of_Z (status_code r))),
           mkWorld env' (Opened h :: Sent rq :: log w))
    end.
Proof.
  intros [-> | ->]; cbv zeta;
    unfold main_io.make_api_request, requests_get, requests_put, requests_send,
      api_request; cbn;
    destruct (http (env w) _) as [[e | r] env']; cbn; try reflexivity;
    destruct ((status_code r =? 200) || (status_code r =? 207)); cbn;
    try reflexivity;
    destruct (json_ r) as [result | e]; reflexivity.
Qed.

(** [make_api_request] returns exactly when the method is GET or PUT,
    the reply has status 200 or 207 and its body parses; only then has
    the response been closed. *)
Theorem make_api_request_returns_iff (method url : string) (data : option json)
    (w w' : World Env) (result : json) :
  make_api_request method url data w = (Done result, w') <->
  (method = "GET" \/ method = "PUT") /\
  exists r env',
    http (env w) (api_request LIFX_TOKEN method url data) = (Returns r, env') /\
    (status_code r = 200 \/ status_code r = 207) /\
    json_ r = Ok result /\
    w' = mkWorld env'
           (Closed (List.length (log w)) :: Opened (List.length (log w)) ::
            Sent (api_request LIFX_TOKEN method url data) :: log w).
Proof.
  split.
  - intros Hrun.
    assert (Hm : method = "GET" \/ method = "PUT").
    { destruct (String.eqb method "GET") eqn:Hg; [left; now apply String.eqb_eq |].
      destruct (String.eqb method "PUT") eqn:Hp; [right; now apply String.eqb_eq |].
      unfold main_io.make_api_request in Hrun.
      rewrite Hg, Hp in Hrun. discriminate. }
    split; [exact Hm |].
    rewrite (make_api_request_supported method url data w Hm) in Hrun.
    cbv zeta in Hrun.
    destruct (http (env w) _) as [[e | r] env']; [discriminate |].
    destruct ((status_code r =? 200) || (status_code r =? 207)) eqn:Hs;
      [| discriminate].
    destruct (json_ r) as [v | e] eqn:Hj; [| discriminate].
    inversion Hrun; subst.
    exists r, env'. repeat split; auto.
    apply orb_true_iff in Hs. destruct Hs as [H | H]; apply Z.eqb_eq in H; auto.
  - intros (Hm & r & env' & Hhttp & Hs & Hj & ->).
    rewrite (make_api_request_supported method url data w Hm).
    cbv zeta. rewrite Hhttp, Hj.
    assert (Hs' : (status_code r =? 200) || (status_code r =? 207) = true).
    { apply orb_true_iff. destruct Hs as [H | H]; rewrite H; auto. }
    now rewrite Hs'.
Qed.

(** When the reply has a status other than 200 and 207, or a body that
    does not parse, [make_api_request] raises and the response it
    obtained is left open: its handler prints and raises again, and
    nothing closes the response. *)
Theorem make_api_request_failure_leaks (method url : string) (data : option json)
    (w : World Env) (r : Reply) (env' : Env) :
  method = "GET" \/ method = "PUT" ->
  http (env w) (api_request LIFX_TOKEN method url data) = (Returns r, env') ->
  (status_code r <> 200 /\ status_code r <> 207) \/ (exists e, json_ r = Raise e) ->
  exists err delta,
    fst (make_api_request method url data w) = Failed err /\
    log (snd (make_api_request method url data w)) = (delta ++ log w)%list /\
    unreleased delta = [List.length (log w)].
Proof.
  intros Hm Hhttp Hbad.
  rewrite (make_api_request_supported method url data w Hm).
  cbv zeta. rewrite Hhttp.
  destruct ((status_code r =? 200) || (status_code r =? 207)) eqn:Hs.
  - destruct Hbad as [[H200 H207] | [e He]].
    + apply orb_true_iff in Hs.
      destruct Hs as [H | H]; apply Z.eqb_eq in H; contradiction.
    + rewrite He. cbn.
      exists (Builtin e),
        [Opened (List.length (log w)); Sent (api_request LIFX_TOKEN method url data)].
      repeat split.
  - cbn.
    exists (Exception_ ("API error: " ++ str_of_Z (status_code r))),
      [Opened (List.length (log w)); Sent (api_request LIFX_TOKEN method url data)].
    repeat split.
Qed.

(** The loop of [connect_wifi] and the parts of the board it leaves
    alone. *)
Lemma connect_wifi_cases (fuel : nat) (bd bd' : Board) (r : outcome unit) :
  connect_wifi fuel bd = Some (r, bd') ->
  exists e',
    bd'.(world) = mkWorld e' (log bd.(world)) /\
    bd'.(wifi) = true /\
    bd'.(controller).(last_button_time) = bd.(controller).(last_button_time) /\
    bd'.(controller).(timers) = bd.(controller).(timers) /\
    bd'.(controller).(success_led) = bd.(controller).(success_led) /\
    ((r = Done tt /\
      bd'.(controller).(system_ready) = true /\
      bd'.(controller).(system_led) = true /\
      bd'.(controller).(error_led) = bd.(controller).(error_led)) \/
     (r = Failed (Exception_ "WiFi connection timeout") /\
      bd'.(controller).(system_ready) = bd.(controller).(system_ready) /\
      bd'.(controller).(system_led) = false /\
      bd'.(controller).(error_led) = true)).
Proof.
  unfold main_io.connect_wifi. cbn.
  destruct (isconnected _) as [up e1]. destruct up; cbn.
  - intros H. inversion H; subst. cbn. eexists. repeat split. left. auto.
  - destruct (ticks_ms (connect e1)) as [start_time e3].
    destruct (wait_connected isconnected ticks_ms sleep_ms fuel start_time e3)
      as [[[|] e4] |]; [| | discriminate];
      intros H; inversion H; subst; cbn; eexists; repeat split; auto.
Qed.

(** When [connect_wifi] ends: [self.wifi] is set and no request was
    sent; if it returned, the controller is ready and the system LED is
    lit; if it raised, it raised "WiFi connection timeout", the error
    LED is lit and stays lit, the system LED is off, and the ready flag
    is what it was. *)
Theorem connect_wifi_ends_ready_or_lit (fuel : nat) (bd bd' : Board) (r : outcome unit) :
  connect_wifi fuel bd = Some (r, bd') ->
  bd'.(wifi) = true /\
  log bd'.(world) = log bd.(world) /\
  ((r = Done tt /\
    bd'.(controller).(system_ready) = true /\
    bd'.(controller).(system_led) = true /\
    bd'.(controller).(error_led) = bd.(controller).(error_led)) \/
   (r = Failed (Exception_ "WiFi connection timeout") /\
    bd'.(controller).(system_ready) = bd.(controller).(system_ready) /\
    bd'.(controller).(system_led) = false /\
    bd'.(controller).(error_led) = true)).
Proof.
  intros Hrun.
  destruct (connect_wifi_cases fuel bd bd' r Hrun) as (e' & Hw & Hwifi & _ & _ & _ & Hr).
  split; [exact Hwifi |]. split; [now rewrite Hw | exact Hr].
Qed.

(** [connect_wifi] on a link that is already up: it returns without
    asking the radio to connect and without entering its loop, so with
    no fuel at all; the outside is what the blink, [active(True)] and
    the one test of the link made of it. *)
Theorem connect_wifi_already_connected (fuel : nat) (bd : Board) (e1 : Env) :
  isconnected (active true (sleep_ms BLINK_DURATION (env bd.(world)))) = (true, e1) ->
  connect_wifi fuel bd =
    Some (Done tt,
          mkBoard (set_system_ready true (set_system_led true
                     (set_system_led false (set_system_led true bd.(controller)))))
                  true
                  (mkWorld e1 (log bd.(world)))).
Proof.
  intros Hup. unfold main_io.connect_wifi. cbn. rewrite Hup. reflexivity.
Qed.

(** The [try] block of [toggle_light] leaves [self.wifi], the ready
    flag, the error LED and the system LED as they were. *)
Lemma toggle_light_try_keeps (bd : Board) :
  let bd1 := snd (toggle_light_try bd) in
  bd1.(wifi) = bd.(wifi) /\
  bd1.(controller).(system_ready) = bd.(controller).(system_ready) /\
  bd1.(controller).(error_led) = bd.(controller).(error_led) /\
  bd1.(controller).(system_led) = bd.(controller).(system_led).
Proof.
  cbv zeta. unfold main_io.toggle_light_try.
  destruct (main_io.get_light_state http LIFX_TOKEN DEFAULT_LIGHT bd.(world))
    as [[current_state | e] w1]; cbn; auto.
  destruct (getitem current_state "power") as [current_power | e]; cbn; auto.
  destruct (main_io.set_light_state http LIFX_TOKEN DEFAULT_LIGHT _ None w1)
    as [[result | e] w2]; cbn; auto.
Qed.

(** [toggle_light] keeps the ready flag, and sets [self.wifi] at most. *)
Lemma toggle_light_keeps (fuel : nat) (bd bd' : Board) (r : outcome unit) :
  toggle_light fuel bd = Some (r, bd') ->
  (bd.(wifi) = true -> bd'.(wifi) = true) /\
  (bd'.(controller).(system_ready) = true ->
   bd.(controller).(system_ready) = true \/ bd'.(wifi) = true).
Proof.
  unfold main_io.toggle_light.
  pose proof (toggle_light_try_keeps bd) as Hkeep. cbv zeta in Hkeep.
  destruct (toggle_light_try bd) as [[[] | e] bd1]; cbn [snd] in Hkeep;
    destruct Hkeep as (Hwifi & Hready & _ & _).
  - intros H. inversion H; subst. split; [congruence | left; congruence].
  - cbn [show_error with_controller with_env wifi controller world].
    destruct (wifi bd1) eqn:Hw1.
    + destruct (isconnected _) as [up e1]. destruct up; cbn [negb].
      * intros H. inversion H; subst. cbn. split; [auto | left; congruence].
      * destruct (main_io.connect_wifi isconnected connect active ticks_ms sleep_ms
                    fuel _) as [[r4 bd4] |] eqn:Hconn; [| discriminate].
        intros H. inversion H; subst.
        apply connect_wifi_cases in Hconn.
        destruct Hconn as (e' & _ & Hwifi4 & _). split; auto.
    + intros H. inversion H; subst. cbn. split; [congruence | left; congruence].
Qed.

(** In every board the steps can reach from [LightController()], a
    controller that is ready has its [self.wifi] set. *)
Lemma run_steps_ready_wifi (steps : list Step) (bd bd' : Board) :
  (bd.(controller).(system_ready) = true -> bd.(wifi) = true) ->
  run_steps steps bd = Some bd' ->
  bd'.(controller).(system_ready) = true -> bd'.(wifi) = true.
Proof.
  revert bd. induction steps as [| s rest IH]; intros bd Hinv Hrun.
  - inversion Hrun; subst. exact Hinv.
  - cbn in Hrun.
    destruct (step s bd) as [bd1 |] eqn:Hstep; [| discriminate].
    apply (IH bd1); [| exact Hrun].
    destruct s as [| fuel | fuel |]; cbn in Hstep.
    + inversion Hstep; subst. unfold main_io.button_pressed.
      destruct (ticks_ms _) as [t e1].
      unfold main.button_pressed.
      destruct (ticks_diff t _ <? DEBOUNCE_TIME); cbn; [exact Hinv |].
      destruct (system_ready bd.(controller)) eqn:Hr; cbn; auto; discriminate.
    + destruct (toggle_light fuel bd) as [[r bd2] |] eqn:Hrun2; [| discriminate].
      inversion Hstep; subst.
      destruct (toggle_light_keeps fuel bd bd1 r Hrun2) as (Hw & Hr).
      intros Hready. destruct (Hr Hready) as [H | H]; auto.
    + destruct (connect_wifi fuel bd) as [[r bd2] |] eqn:Hrun2; [| discriminate].
      inversion Hstep; subst.
      apply connect_wifi_cases in Hrun2. destruct Hrun2 as (e' & _ & Hw & _). auto.
    + inversion Hstep; subst. unfold main_io.cleanup. cbn.
      destruct (wifi bd) eqn:Hw; cbn; rewrite ?Hw; auto.
Qed.

(** A toggle that a press scheduled never raises.  A press schedules
    the toggle only when the controller is ready; in every board
    reached from [LightController()] by presses, toggles, connections
    and clean-ups, a ready controller has its [self.wifi] set, and
    with it set [toggle_light] ends without an exception whenever it
    ends. *)
Theorem scheduled_toggle_never_raises (steps : list Step) (e : Env) (bd : Board) :
  run_steps steps (boot e) = Some bd ->
  bd.(controller).(system_ready) = true ->
  bd.(wifi) = true /\
  forall fuel r bd', toggle_light fuel bd = Some (r, bd') -> r = Done tt.
Proof.
  intros Hrun Hready.
  assert (Hwifi : bd.(wifi) = true).
  { apply (run_steps_ready_wifi steps (boot e) bd); auto; discriminate. }
  split; [exact Hwifi |].
  intros fuel r bd' H. unfold main_io.toggle_light in H.
  pose proof (toggle_light_try_keeps bd) as Hkeep. cbv zeta in Hkeep.
  destruct (toggle_light_try bd) as [[[] | err] bd1]; cbn [snd] in Hkeep;
    destruct Hkeep as (Hw1 & _).
  - now inversion H.
  - cbn [show_error with_controller with_env wifi controller world] in H.
    rewrite Hw1, Hwifi in H.
    destruct (isconnected _) as [up e1]. destruct up; cbn [negb] in H.
    + now inversion H.
    + destruct (main_io.connect_wifi _ _ _ _ _ fuel _) as [[r4 bd4] |];
        [now inversion H | discriminate].
Qed.

(** A toggle run before [connect_wifi] ever ran ([self.wifi] is still
    [None]) and whose [try] block fails does raise: its handler shows
    the error and then raises [AttributeError] on
    [self.wifi.isconnected()]. *)
Theorem toggle_light_without_wifi (fuel : nat) (bd bd1 : Board) (err : Error) :
  bd.(wifi) = false ->
  toggle_light_try bd = (Failed err, bd1) ->
  exists e,
    toggle_light fuel bd =
      Some (Failed (Builtin e), main_io.show_error sleep_ms 1000 bd1) /\
    exc_class e = AttributeError.
Proof.
  intros Hwifi Htry.
  pose proof (toggle_light_try_keeps bd) as Hkeep. cbv zeta in Hkeep.
  rewrite Htry in Hkeep. cbn [snd] in Hkeep. destruct Hkeep as (Hw1 & _).
  unfold main_io.toggle_light. rewrite Htry.
  cbn [show_error with_controller with_env wifi controller world].
  rewrite Hw1, Hwifi. eexists. split; reflexivity.
Qed.

(** A failed toggle, the link found down, and a reconnection that times
    out: [toggle_light] swallows the timeout and ends without an
    exception, the error LED is left lit, and the ready flag is what it
    was before the toggle. *)
Theorem toggle_light_failed_reconnect (fuel : nat) (bd bd1 bd4 : Board)
    (err err' : Error) (e1 : Env) :
  toggle_light_try bd = (Failed err, bd1) ->
  bd.(wifi) = true ->
  isconnected (env (main_io.show_error sleep_ms 1000 bd1).(world)) = (false, e1) ->
  connect_wifi fuel (with_env (fun _ => e1) (main_io.show_error sleep_ms 1000 bd1)) =
    Some (Failed err', bd4) ->
  toggle_light fuel bd = Some (Done tt, bd4) /\
  bd4.(controller).(error_led) = true /\
  bd4.(controller).(system_ready) = bd.(controller).(system_ready).
Proof.
  intros Htry Hwifi Hdown Hconn.
  pose proof (toggle_light_try_keeps bd) as Hkeep. cbv zeta in Hkeep.
  rewrite Htry in Hkeep. cbn [snd] in Hkeep. destruct Hkeep as (Hw1 & Hr1 & _).
  split.
  - unfold main_io.toggle_light. rewrite Htry.
    replace (wifi (main_io.show_error sleep_ms 1000 bd1)) with true
      by (cbn; congruence).
    rewrite Hdown. cbn [negb]. now rewrite Hconn.
  - apply connect_wifi_cases in Hconn.
    destruct Hconn as (e' & _ & _ & _ & _ & _ & [(Habs & _) | (_ & Hr & _ & Hled)]);
      [discriminate |].
    split; [exact Hled |]. rewrite Hr. cbn. exact Hr1.
Qed.

End BoardFacts.

Section BoardToggle.

Import lifx_api.
Import main.
Import main_io.

Context {Env : Type}.
Variable http : Env -> Request -> HttpOutcome * Env.
Variable isconnected : Env -> bool * Env.
Variable connect : Env -> Env.
Variable active : bool -> Env -> Env.
Variable ticks_ms : Env -> Z * Env.
Variable sleep_ms : Z -> Env -> Env.
Variable LIFX_TOKEN : string.

(** The toggle of [main.py] takes any reply to its write with status 200
    or 207 and a body that parses for a success, whatever the body
    says: it never looks at ["results"].  Past a read that gave the
    state of the light, it sends one PUT whose body sets [power] to
    "off" when the light reported "on" and to "on" otherwise, blinks the
    success LED and ends without an exception, for any fuel. *)
Theorem board_toggle_unchecked_write (fuel : nat) (bd : main_io.Board Env)
    (w1 : World Env) (current_state current_power result : json) (r : Reply)
    (env' : Env) :
  main_io.get_light_state http LIFX_TOKEN DEFAULT_LIGHT bd.(world) =
    (Done current_state, w1) ->
  getitem current_state "power" = Ok current_power ->
  let new_power := if eq_str current_power "on" then "off" else "on" in
  let write :=
    api_request LIFX_TOKEN "PUT" (LIFX_BASE_URL ++ "/lights/" ++ DEFAULT_LIGHT ++ "/state")
      (Some (JObj [("power", JStr new_power)])) in
  http (env w1) write = (Returns r, env') ->
  status_code r = 200 \/ status_code r = 207 ->
  json_ r = Ok result ->
  main_io.toggle_light http isconnected connect active ticks_ms sleep_ms LIFX_TOKEN
    fuel bd =
    Some (Done tt,
          mkBoard (set_success_led false (set_success_led true bd.(controller)))
            bd.(wifi)
            (mkWorld (sleep_ms BLINK_DURATION env')
               (Closed (List.length (log w1)) :: Opened (List.length (log w1)) ::
                Sent write :: log w1))).
Proof.
  intros Hget Hpower new_power write Hhttp Hs Hj.
  unfold main_io.toggle_light, main_io.toggle_light_try.
  rewrite Hget, Hpower. fold new_power.
  unfold main_io.set_light_state. cbn [app].
  rewrite (make_api_request_supported http LIFX_TOKEN "PUT" _ _ w1 (or_intror eq_refl)).
  cbv zeta. fold write. rewrite Hhttp, Hj.
  assert (Hs' : (status_code r =? 200) || (status_code r =? 207) = true).
  { apply orb_true_iff. destruct Hs as [H | H]; rewrite H; auto. }
  rewrite Hs'. reflexivity.
Qed.

End BoardToggle.

(** * Waiting for the link *)

Section Clock.

Import main.
Import main_io.

Context {Env : Type}.
Variable isconnected : Env -> bool * Env.
Variable connect : Env -> Env.
Variable active : bool -> Env -> Env.
Variable ticks_ms : Env -> Z * Env.
Variable sleep_ms : Z -> Env -> Env.

(** The time in milliseconds, not wrapped, and how long a call on the
    radio or a reading of the clock can take at most.  [ticks_ms] reads
    the time at which it is called, modulo the period; [sleep_ms d]
    takes at least [d]. *)
Variable clock : Env -> Z.
Variable lag : Z.
Hypothesis lag_bound : 0 <= lag /\ 10100 + 3 * lag < TICKS_PERIOD / 2.
Hypothesis isconnected_lag :
  forall e, clock e <= clock (snd (isconnected e)) <= clock e + lag.
Hypothesis ticks_ms_reads :
  forall e, fst (ticks_ms e) = clock e mod TICKS_PERIOD /\
            clock e <= clock (snd (ticks_ms e)) <= clock e + lag.
Hypothesis sleep_ms_sleeps :
  forall d e, 0 <= d -> clock e + d <= clock (sleep_ms d e) <= clock e + d + lag.

(** The loop ends within the tests its timeout allows, and when it
    gives up more than [WIFI_TIMEOUT] has passed. *)
Lemma wait_connected_ends (fuel : nat) (c0 : Z) (e : Env) :
  0 <= clock e - c0 <= 10100 + 2 * lag ->
  (Z.of_nat fuel - 1) * 100 + (clock e - c0) > 10000 ->
  (1 <= fuel)%nat ->
  exists up e',
    wait_connected isconnected ticks_ms sleep_ms fuel (c0 mod TICKS_PERIOD) e =
      Some (up, e') /\
    (up = false -> 10000 < clock e' - c0 <= 10100 + 4 * lag).
Proof.
  revert e. induction fuel as [| fuel IH]; intros e Hgap Hfuel Hpos; [lia |].
  cbn [wait_connected].
  pose proof (isconnected_lag e) as Hc.
  destruct (isconnected e) as [up e1]. cbn [snd] in Hc.
  destruct up; [exists true, e1; split; [reflexivity | discriminate] |].
  pose proof (ticks_ms_reads e1) as [Hnow Ht].
  destruct (ticks_ms e1) as [now e2]. cbn [fst snd] in Hnow, Ht.
  assert (Hdiff : ticks_diff now (c0 mod TICKS_PERIOD) = clock e1 - c0).
  { rewrite Hnow. replace (clock e1) with (c0 + (clock e1 - c0)) at 1 by lia.
    apply ticks_diff_elapsed. lia. }
  rewrite Hdiff. unfold WIFI_TIMEOUT.
  rewrite Z.gtb_ltb.
  destruct (Z.ltb_spec 10000 (clock e1 - c0)) as [Hover | Hunder].
  - exists false, e2. split; [reflexivity |]. intros _. lia.
  - pose proof (sleep_ms_sleeps 100 e2 ltac:(lia)) as Hs.
    apply IH; lia.
Qed.

(** [connect_wifi] ends: with time passing as described, 102 tests of
    the link are enough for its loop, whatever the link does.  When it
    gives up, more than 10 seconds and at most 10.1 seconds and four
    lags have passed since it asked the radio to connect. *)
Theorem connect_wifi_terminates (fuel : nat) (bd : main_io.Board Env) :
  (102 <= fuel)%nat ->
  exists r bd',
    main_io.connect_wifi isconnected connect active ticks_ms sleep_ms fuel bd =
      Some (r, bd') /\
    (r <> Done tt ->
     let asked :=
       connect (snd (isconnected (active true (sleep_ms BLINK_DURATION
                                                 (lifx_api.env bd.(world)))))) in
     10000 < clock (lifx_api.env bd'.(world)) - clock asked <= 10100 + 4 * lag).
Proof.
  intros Hfuel. unfold main_io.connect_wifi. cbn.
  destruct (isconnected _) as [up e1]. cbn [snd].
  destruct up; cbn [negb]; [do 2 eexists; split; [reflexivity | congruence] |].
  pose proof (ticks_ms_reads (connect e1)) as [Hstart Ht].
  destruct (ticks_ms (connect e1)) as [start_time e3]. cbn [fst snd] in Hstart, Ht.
  rewrite Hstart.
  destruct (wait_connected_ends fuel (clock (connect e1)) e3) as (up & e4 & Hwait & Hgave);
    try lia.
  rewrite Hwait. destruct up.
  - do 2 eexists. split; [reflexivity | congruence].
  - do 2 eexists. split; [reflexivity |]. intros _. cbn. apply Hgave. reflexivity.
Qed.

End Clock.

(** * Runs of presses *)

Section Presses.

Import main.
Import main_io.

(** The last item of a list that has one does not depend on the
    default. *)
Lemma last_cons_default (z : Z) (l : list Z) (a b : Z) :
  List.last (z :: l) a = List.last (z :: l) b.
Proof.
  revert z. induction l as [| y l IH]; intros z; [reflexivity |].
  change (List.last (y :: l) a = List.last (y :: l) b). apply IH.
Qed.

(** The two ways a press can go. *)
Lemma button_pressed_gate (t : Z) (c : LightController) :
  (accepted (fst (main.button_pressed t c)) = false /\
   snd (main.button_pressed t c) = c) \/
  (accepted (fst (main.button_pressed t c)) = true /\
   (snd (main.button_pressed t c)).(last_button_time) = t /\
   DEBOUNCE_TIME <= ticks_diff t c.(last_button_time)).
Proof.
  unfold main.button_pressed.
  destruct (Z.ltb_spec (ticks_diff t c.(last_button_time)) DEBOUNCE_TIME) as [Hlt | Hge].
  - left. split; reflexivity.
  - right. cbn [system_ready]. destruct (system_ready c); cbn; repeat split; lia.
Qed.

(** Over any run of presses, whatever the clock reads at each, every
    press the gate lets through comes at least [DEBOUNCE_TIME] after the
    last one it let through before, and [last_button_time] ends as the
    time of the last press let through. *)
Theorem press_all_spaced (times : list Z) (c : LightController) :
  spaced c.(last_button_time) (fst (press_all times c)) /\
  (snd (press_all times c)).(last_button_time) =
    List.last (fst (press_all times c)) c.(last_button_time).
Proof.
  revert c. induction times as [| t rest IH]; intros c; cbn [press_all]; [cbn; auto |].
  pose proof (button_pressed_gate t c) as Hgate.
  destruct (main.button_pressed t c) as [how c1]. cbn [fst snd] in Hgate.
  specialize (IH c1).
  destruct (press_all rest c1) as [let_through c2]. cbn [fst snd] in *.
  destruct Hgate as [[Hacc ->] | (Hacc & Hlast & Hge)]; rewrite Hacc.
  - exact IH.
  - rewrite Hlast in IH. destruct IH as [Hsp Hl].
    split; [split; assumption |].
    rewrite Hl. destruct let_through as [| z l]; [reflexivity |].
    change (List.last (z :: l) t = List.last (z :: l) c.(last_button_time)).
    apply last_cons_default.
Qed.

(** What a press does to the outputs.  A timer (of 10 ms) is armed
    exactly when the gate lets the press through and the controller is
    ready; the ready flag and the error and success LEDs are never
    touched; and a press that arms the timer leaves the system LED off,
    lit or not before. *)
Theorem button_pressed_outputs (current_time : Z) (c : LightController) :
  let how := fst (main.button_pressed current_time c) in
  let c' := snd (main.button_pressed current_time c) in
  c'.(timers) = (if accepted how && c.(system_ready) then 10 :: c.(timers)
                 else c.(timers)) /\
  (how = Scheduled <-> accepted how && c.(system_ready) = true) /\
  c'.(system_ready) = c.(system_ready) /\
  c'.(error_led) = c.(error_led) /\
  c'.(success_led) = c.(success_led) /\
  c'.(system_led) = (if accepted how && c.(system_ready) then false else c.(system_led)).
Proof.
  cbv zeta. unfold main.button_pressed.
  destruct (ticks_diff current_time c.(last_button_time) <? DEBOUNCE_TIME); cbn.
  - repeat split; auto; discriminate.
  - destruct (system_ready c) eqn:Hr; cbn; repeat split; auto; discriminate.
Qed.

End Presses.

(** * More examples *)

Section ClientExamples.

Import lifx_api.

(** A DELETE goes nowhere. *)
Lemma make_request_unsupported_method_witness :
  exists e,
    _make_request scripted fixture_controller "DELETE" "lights/all" None (playing []) =
      (Raise e, playing []) /\
    exc_class e = UnboundLocalError.
Proof.
  apply (make_request_unsupported_method scripted fixture_controller
           "DELETE" "lights/all" None (playing [])); discriminate.
Defined.

(** A read answered with status 500. *)
Lemma make_request_bad_status_witness :
  _make_request scripted fixture_controller "GET" "lights/all" None
    (playing [server_error]) =
    (Raise (raise_ LIFXAPIError "HTTP 500: Internal Server Error"),
     mkWorld []
       [Closed 0; Opened 0; Sent (request_of fixture_controller "GET" "lights/all" None)]).
Proof.
  exact (make_request_bad_status scripted fixture_controller "GET" "lights/all" None
           (playing [server_error])
           (mkReply 500 "Internal Server Error" (Ok JNull)) []
           (or_introl eq_refl) eq_refl
           ltac:(discriminate) ltac:(discriminate)).
Defined.

(** A selector that matches no light: the service answers with an empty
    list. *)
Lemma get_light_state_no_lights_witness :
  get_light_state scripted fixture_controller "label:Attic" (playing [lights_reply []]) =
    (Raise (raise_ LIFXAPIError "No lights found for selector: label:Attic"),
     mkWorld [] [Closed 0; Opened 0; Sent (state_read fixture_controller "label:Attic")]).
Proof.
  exact (get_light_state_no_lights scripted fixture_controller "label:Attic"
           (playing [lights_reply []]) (mkReply 200 "" (Ok (JArr []))) [] (JArr [])
           eq_refl (or_introl eq_refl) eq_refl eq_refl).
Defined.

(** A read that returns, and the reply it returns. *)
Lemma get_light_state_returns_iff_witness :
  get_light_state scripted fixture_controller "label:Kitchen"
    (playing [lights_reply [light "on"]]) =
    (Ok (JArr [light "on"]),
     mkWorld [] [Closed 0; Opened 0; Sent (state_read fixture_controller "label:Kitchen")]).
Proof.
  apply (get_light_state_returns_iff scripted fixture_controller "label:Kitchen"
           (playing [lights_reply [light "on"]])).
  exists (mkReply 200 "" (Ok (JArr [light "on"]))), [].
  repeat split. left. reflexivity.
Defined.

(** A timeout and a refused connection look the same to the caller. *)
Lemma get_light_state_library_raises_witness :
  exists message,
    get_light_state scripted fixture_controller "label:Kitchen" (playing [timed_out]) =
      (Raise (raise_ LIFXAPIError ("Failed to get light state: " ++ message)),
       mkWorld [] [Sent (state_read fixture_controller "label:Kitchen")]) /\
    get_light_state scripted fixture_controller "label:Kitchen" (playing []) =
      (Raise (raise_ LIFXAPIError ("Failed to get light state: " ++ message)),
       mkWorld [] [Sent (state_read fixture_controller "label:Kitchen")]).
Proof.
  destruct (get_light_state_library_raises scripted fixture_controller "label:Kitchen"
              (playing [timed_out])) as [message H1].
  destruct (get_light_state_library_raises scripted fixture_controller "label:Kitchen"
              (playing [])) as [message' H2].
  pose proof (H1 _ _ eq_refl) as E1.
  pose proof (H2 _ _ eq_refl) as E2.
  exists message. split; [exact E1 |].
  assert (Hsame : message' = message).
  { cbv in E1, E2. inversion E1. inversion E2. congruence. }
  rewrite <- Hsame. exact E2.
Defined.

(** A write of the three fields. *)
Lemma set_light_state_request_witness :
  exists delta,
    log (snd (set_light_state scripted fixture_controller "label:Kitchen"
                (Some "on") (Some (7 # 10)) (Some "blue") (playing [timed_out]))) =
      (delta ++ [])%list /\
    sent delta =
      [state_write fixture_controller "label:Kitchen"
         [("power", JStr "on"); ("brightness", JNum (7 # 10)); ("color", JStr "blue")]].
Proof.
  apply (set_light_state_request scripted fixture_controller "label:Kitchen"
           (Some "on") (Some (7 # 10)) (Some "blue") (playing [timed_out])).
  discriminate.
Defined.

(** A reply that is an object without results. *)
Lemma set_light_state_without_results_witness :
  set_light_state scripted fixture_controller "label:Kitchen" (Some "on") None None
    (playing [Returns (mkReply 207 "" (Ok (JObj [("error", JStr "nothing done")])))]) =
    (Ok (JObj [("error", JStr "nothing done")]),
     mkWorld [] [Closed 0; Opened 0;
                 Sent (power_write fixture_controller "label:Kitchen" "on")]).
Proof.
  apply (set_light_state_without_results scripted fixture_controller "label:Kitchen"
           (Some "on") None None
           (playing [Returns (mkReply 207 "" (Ok (JObj [("error", JStr "nothing done")])))]));
    [discriminate | reflexivity | reflexivity].
Defined.

(** One entry that says "ok" and one that is a string. *)
Lemma set_light_state_malformed_entry_witness :
  exists message,
    set_light_state scripted fixture_controller "group:Home" (Some "on") None None
      (playing [results_reply [JObj (entry "ok"); JStr "offline"]]) =
      (Raise (raise_ LIFXAPIError ("Failed to set light state: " ++ message)),
       mkWorld [] [Closed 0; Opened 0;
                   Sent (power_write fixture_controller "group:Home" "on")]).
Proof.
  apply (set_light_state_malformed_entry scripted fixture_controller "group:Home"
           (Some "on") None None
           (playing [results_reply [JObj (entry "ok"); JStr "offline"]]) _
           [("results", JArr [JObj (entry "ok"); JStr "offline"])]
           [JObj (entry "ok"); JStr "offline"]);
    [discriminate | reflexivity | reflexivity | reflexivity].
Defined.

(** A light without a power item. *)
Lemma toggle_light_malformed_reply_witness :
  toggle_light scripted fixture_controller "label:Kitchen"
    (playing [lights_reply [JObj [("label", JStr "Kitchen")]];
              results_reply [JObj (entry "ok")]]) =
    (Raise (raise_ LIFXAPIError "Toggle failed: 'power'"),
     mkWorld [results_reply [JObj (entry "ok")]]
       [Closed 0; Opened 0; Sent (state_read fixture_controller "label:Kitchen")]).
Proof.
  exact (toggle_light_malformed_reply scripted fixture_controller "label:Kitchen"
           (playing [lights_reply [JObj [("label", JStr "Kitchen")]];
                     results_reply [JObj (entry "ok")]])
           _ (JArr [JObj [("label", JStr "Kitchen")]]) (raise_ KeyError "'power'")
           eq_refl eq_refl).
Defined.

(** Two lights, one of them without a location. *)
Lemma discover_lights_returns_witness :
  let w := playing [lights_reply [described_light "d073" "Kitchen" "on";
                                  unplaced_light "d074" "Living room" "off"]] in
  exists lights items infos w',
    discover_lights scripted example_percent example_str_other fixture_controller w =
      (Ok infos, w') /\
    get_light_state scripted fixture_controller "all" w = (Ok lights, w') /\
    iterate lights = Ok items /\
    Forall2 (fun light info =>
               light_info example_percent example_str_other light = Ok info)
      items infos /\
    List.length infos = 2%nat.
Proof.
  cbv zeta.
  destruct (discover_lights_returns scripted example_percent example_str_other
              fixture_controller
              (playing [lights_reply [described_light "d073" "Kitchen" "on";
                                      unplaced_light "d074" "Living room" "off"]])
              _ _ eq_refl)
    as (lights & items & Hget & Hiter & Hall & Hlen).
  do 4 eexists. split; [reflexivity |].
  split; [exact Hget |]. split; [exact Hiter |]. split; [exact Hall |].
  reflexivity.
Defined.

(** The selector of a light whose label has a space in it. *)
Lemma light_info_fields_witness :
  exists info,
    light_info example_percent example_str_other
      (unplaced_light "d074" "Living room" "off") = Ok info /\
    getitem info "id" = Ok (JStr "d074") /\
    getitem info "selector" = Ok (JStr "label:Living room").
Proof.
  eexists. split; [reflexivity |].
  destruct (light_info_fields example_percent example_str_other
              (unplaced_light "d074" "Living room" "off") _ eq_refl)
    as (Hid & _ & _ & label & Hlabel & Hselector).
  split; [exact Hid |].
  inversion Hlabel; subst. exact Hselector.
Defined.

Lemma light_info_unknown_location_witness :
  exists info,
    light_info example_percent example_str_other
      (unplaced_light "d074" "Living room" "off") = Ok info /\
    getitem info "location" = Ok (JStr "Unknown").
Proof.
  eexists. split; [reflexivity |].
  apply (light_info_unknown_location example_percent example_str_other
           [("id", JStr "d074"); ("label", JStr "Living room"); ("power", JStr "off");
            ("brightness", JNum (1 # 2))] _ eq_refl).
  left. reflexivity.
Defined.

(** The first light has lost its id. *)
Lemma discover_lights_missing_id_witness :
  discover_lights scripted example_percent example_str_other fixture_controller
    (playing [lights_reply [light "on"; described_light "d073" "Kitchen" "on"]]) =
    (Raise (raise_ LIFXAPIError "Light discovery failed: 'id'"),
     mkWorld [] [Closed 0; Opened 0; Sent (state_read fixture_controller "all")]).
Proof.
  exact (discover_lights_missing_id scripted example_percent example_str_other
           fixture_controller
           (playing [lights_reply [light "on"; described_light "d073" "Kitchen" "on"]])
           _ [("power", JStr "on"); ("brightness", JNum (8 # 10))]
           [described_light "d073" "Kitchen" "on"] eq_refl eq_refl).
Defined.

(** A token of 63 characters in [secrets], and the token of the
    fixtures. *)
Lemma functions_check_token_witness :
  lifx_api_functions.toggle_light scripted
    "0123456789abcdef0123456789abcdef0123456789abcdef0123456789abcde"
    "label:Kitchen" 400 (playing [lights_reply [light "on"]]) =
    (Raise (raise_ LIFXAPIError "Invalid LIFX API token format"),
     playing [lights_reply [light "on"]]) /\
  lifx_api_functions.toggle_light scripted fixture_token "label:Kitchen" 400
    (playing [lights_reply [light "on"]]) =
    lifx_api.toggle_light scripted fixture_controller "label:Kitchen"
      (playing [lights_reply [light "on"]]).
Proof.
  split.
  - apply (functions_check_token scripted
             "0123456789abcdef0123456789abcdef0123456789abcdef0123456789abcde"
             example_percent example_str_other "label:Kitchen" 400
             (playing [lights_reply [light "on"]])).
    cbn. discriminate.
  - apply (functions_check_token scripted fixture_token
             example_percent example_str_other "label:Kitchen" 400
             (playing [lights_reply [light "on"]])).
    reflexivity.
Defined.

End ClientExamples.

Section BoardExamples.

Import lifx_api.
Import main.
Import main_io.

Notation bench_connect_wifi :=
  (main_io.connect_wifi bench_isconnected bench_connect bench_active bench_ticks_ms
     bench_sleep_ms).
Notation bench_toggle_light :=
  (main_io.toggle_light bench_http bench_isconnected bench_connect bench_active
     bench_ticks_ms bench_sleep_ms fixture_token).
Notation bench_run_steps :=
  (main_io.run_steps bench_http bench_isconnected bench_connect bench_active
     bench_ticks_ms bench_sleep_ms fixture_token).

(** A read answered with status 500 leaves its response open. *)
Lemma make_api_request_failure_leaks_witness :
  let w := mkWorld (mkBench 0 0 [server_error]) [] in
  let run := main_io.make_api_request bench_http fixture_token "GET"
               "https://api.lifx.com/v1/lights/Kitchen/state" None w in
  exists err delta,
    fst run = Failed err /\
    log (snd run) = (delta ++ log w)%list /\
    unreleased delta = [0%nat].
Proof.
  cbv zeta.
  apply (make_api_request_failure_leaks bench_http fixture_token "GET"
           "https://api.lifx.com/v1/lights/Kitchen/state" None
           (mkWorld (mkBench 0 0 [server_error]) [])
           (mkReply 500 "Internal Server Error" (Ok JNull)) (mkBench 0 0 []));
    [left; reflexivity | reflexivity | left; split; discriminate].
Defined.

(** The link comes up 300 ms after start-up. *)
Lemma connect_wifi_ends_ready_or_lit_witness :
  exists bd',
    bench_connect_wifi 10 (on_bench main.__init__ false 0 300 []) = Some (Done tt, bd') /\
    bd'.(wifi) = true /\
    bd'.(controller).(system_ready) = true /\
    bd'.(controller).(system_led) = true.
Proof.
  eexists. split; [reflexivity |].
  destruct (connect_wifi_ends_ready_or_lit bench_isconnected bench_connect bench_active
              bench_ticks_ms bench_sleep_ms 10 (on_bench main.__init__ false 0 300 [])
              _ _ eq_refl)
    as (Hwifi & _ & [(_ & Hready & Hled & _) | (Habs & _)]); [| discriminate].
  repeat split; assumption.
Defined.

(** The link is up already: no fuel is needed. *)
Lemma connect_wifi_already_connected_witness :
  bench_connect_wifi 0 (on_bench main.__init__ false 1000 0 []) =
    Some (Done tt,
          mkBoard (mkLightController true false false 0 true []) true
            (mkWorld (mkBench 1200 0 []) [])).
Proof.
  exact (connect_wifi_already_connected bench_isconnected bench_connect bench_active
           bench_ticks_ms bench_sleep_ms 0 (on_bench main.__init__ false 1000 0 [])
           (mkBench 1200 0 []) eq_refl).
Defined.

(** After start-up, a connection and a press, the scheduled toggle
    cannot raise. *)
Lemma scheduled_toggle_never_raises_witness :
  exists bd,
    bench_run_steps [Connect 10; Press] (boot (mkBench 1000 0 [timed_out])) = Some bd /\
    bd.(controller).(system_ready) = true /\
    bd.(controller).(timers) = [10] /\
    bd.(wifi) = true /\
    forall fuel r bd', bench_toggle_light fuel bd = Some (r, bd') -> r = Done tt.
Proof.
  eexists. split; [reflexivity |]. split; [reflexivity |]. split; [reflexivity |].
  apply (scheduled_toggle_never_raises bench_http bench_isconnected bench_connect
           bench_active bench_ticks_ms bench_sleep_ms fixture_token
           [Connect 10; Press] (mkBench 1000 0 [timed_out]) _ eq_refl eq_refl).
Defined.

(** A toggle right after [LightController()], with the service out of
    reach. *)
Lemma toggle_light_without_wifi_witness :
  exists e bd',
    bench_toggle_light 0 (boot (mkBench 0 0 [timed_out])) =
      Some (Failed (Builtin e), bd') /\
    exc_class e = AttributeError.
Proof.
  destruct (toggle_light_without_wifi bench_http bench_isconnected bench_connect
              bench_active bench_ticks_ms bench_sleep_ms fixture_token 0
              (boot (mkBench 0 0 [timed_out])) _ _ eq_refl eq_refl)
    as (e & Hrun & Hclass).
  exists e. eexists. split; [exact Hrun | exact Hclass].
Defined.

(** The service out of reach and a link that does not come up: the
    toggle ends quietly with the error LED lit. *)
Lemma toggle_light_failed_reconnect_witness :
  exists bd4,
    bench_toggle_light 102 (on_bench ready_controller true 0 1000000 [timed_out]) =
      Some (Done tt, bd4) /\
    bd4.(controller).(error_led) = true /\
    bd4.(controller).(system_ready) = true.
Proof.
  eexists.
  eapply (toggle_light_failed_reconnect bench_http bench_isconnected bench_connect
            bench_active bench_ticks_ms bench_sleep_ms fixture_token 102
            (on_bench ready_controller true 0 1000000 [timed_out]));
    [reflexivity | reflexivity | reflexivity | lazy; reflexivity].
Defined.

(** The light is on and the write is answered with one entry, "failed":
    the toggle of the board ends as a success all the same. *)
Lemma board_toggle_unchecked_write_witness :
  exists bd',
    bench_toggle_light 0
      (on_bench ready_controller true 0 0
         [lights_reply [light "on"]; results_reply [JObj (entry "failed")]]) =
      Some (Done tt, bd') /\
    sent (log bd'.(world)) =
      [api_request fixture_token "PUT" "https://api.lifx.com/v1/lights/Kitchen/state"
         (Some (JObj [("power", JStr "off")]));
       api_request fixture_token "GET" "https://api.lifx.com/v1/lights/Kitchen/state" None] /\
    bd'.(controller).(error_led) = false.
Proof.
  eexists. split.
  - eapply (board_toggle_unchecked_write bench_http bench_isconnected bench_connect
              bench_active bench_ticks_ms bench_sleep_ms fixture_token 0
              (on_bench ready_controller true 0 0
                 [lights_reply [light "on"]; results_reply [JObj (entry "failed")]]));
      [reflexivity | reflexivity | reflexivity | right; reflexivity | reflexivity].
  - split; reflexivity.
Defined.

(** On the bench the clock is exact: with a link that never comes up,
    [connect_wifi] gives up after 102 tests, between 10 and 10.1
    seconds after it asked. *)
Lemma connect_wifi_terminates_witness :
  let bd := on_bench main.__init__ false 0 1000000 [] in
  exists r bd',
    bench_connect_wifi 102 bd = Some (r, bd') /\
    (r <> Done tt ->
     let asked :=
       bench_connect (snd (bench_isconnected (bench_active true
                             (bench_sleep_ms BLINK_DURATION (env bd.(world)))))) in
     10000 < now (env bd'.(world)) - now asked <= 10100 + 4 * 0).
Proof.
  cbv zeta.
  apply (connect_wifi_terminates bench_isconnected bench_connect bench_active
           bench_ticks_ms bench_sleep_ms now 0).
  - split; [lia | reflexivity].
  - intros e. cbn. lia.
  - intros e. cbn. split; [reflexivity | lia].
  - intros d e Hd. cbn. lia.
  - lia.
Defined.

End BoardExamples.

(** * Presses long after the last one *)

Section DebounceWrap.

Import main.

(** Past half a period and below a whole one, [ticks_diff] of the time
    that passed is negative: it is that time less the period. *)
Lemma ticks_diff_wrapped (t0 d : Z) :
  TICKS_PERIOD / 2 <= d < TICKS_PERIOD ->
  ticks_diff ((t0 + d) mod TICKS_PERIOD) (t0 mod TICKS_PERIOD) = d - TICKS_PERIOD.
Proof.
  intros Hd. rewrite ticks_diff_mod.
  assert (HP : TICKS_PERIOD = 2 * (TICKS_PERIOD / 2)) by reflexivity.
  assert (Hhalf : 0 < TICKS_PERIOD / 2) by reflexivity.
  replace ((t0 + d) mod TICKS_PERIOD - t0 mod TICKS_PERIOD + TICKS_PERIOD / 2)
    with ((t0 + d) mod TICKS_PERIOD + (TICKS_PERIOD / 2 - t0 mod TICKS_PERIOD)) by lia.
  rewrite Zplus_mod_idemp_l.
  replace (t0 + d + (TICKS_PERIOD / 2 - t0 mod TICKS_PERIOD))
    with (t0 + d + TICKS_PERIOD / 2 - t0 mod TICKS_PERIOD) by lia.
  rewrite Zminus_mod_idemp_r.
  replace (t0 + d + TICKS_PERIOD / 2 - t0)
    with (d - TICKS_PERIOD / 2 + 1 * TICKS_PERIOD) by lia.
  rewrite Z_mod_plus_full, Z.mod_small by lia. lia.
Qed.

(** A press that comes between half a period and a whole period of the
    counter after the last accepted one (between 6.2 and 12.4 days) is
    ignored, wherever the counter stood, and the controller is left as
    it was: [last_button_time] is not moved, so the presses that follow
    are measured from the same old time. *)
Lemma button_pressed_wrapped (t0 d : Z) (self : LightController) :
  self.(last_button_time) = t0 mod TICKS_PERIOD ->
  TICKS_PERIOD / 2 <= d < TICKS_PERIOD ->
  button_pressed ((t0 + d) mod TICKS_PERIOD) self = (Debounced, self).
Proof.
  intros Hlast Hd. unfold button_pressed.
  rewrite Hlast, ticks_diff_wrapped by exact Hd.
  assert (HP : TICKS_PERIOD = 2 * (TICKS_PERIOD / 2)) by reflexivity.
  unfold DEBOUNCE_TIME.
  destruct (Z.ltb_spec (d - TICKS_PERIOD) 50); [reflexivity | lia].
Qed.

(** C2. A press that comes at or after the window is not always let
    through.  With the last press accepted when the clock read 1000, a
    press seven days later (604800000 ms, the clock reading 604801000)
    has [ticks_diff] -468941824, which is less than [DEBOUNCE_TIME]:
    the handler returns at its debounce test, the press is ignored and
    [last_button_time] stays 1000.  A press 49 ms after the accepted
    one is ignored and a press 50 ms after it is let through, as the
    gate is meant to work. *)
Theorem late_press_ignored :
  let self := mkLightController true false false 1000 true [] in
  ticks_diff 604801000 1000 = -468941824 /\
  button_pressed 604801000 self = (Debounced, self) /\
  button_pressed 1049 self = (Debounced, self) /\
  fst (button_pressed 1050 self) = Scheduled /\
  (snd (button_pressed 1050 self)).(last_button_time) = 1050.
Proof. cbv zeta. repeat split. Qed.

End DebounceWrap.
